(** * intellimock-app: the job-information form

    A shallow embedding of
    - [src/features/jobInfos/schemas.ts]  (the conditional validation schema),
    - [src/features/jobInfos/components/JobInfoForm.tsx]  (the technology list
      handlers and the resume upload workflow),
    - [src/app/api/parse-resume/route.ts]  (the route that relays the resume
      to the extraction service),
    - the earlier schema and the stand-alone PDF uploader component,
    together with the fragment of the zod validation library that the schema
    is built from. *)

From Stdlib Require Import String Ascii.
From stdpp Require Import base decidable option list numbers strings pretty.

Local Open Scope string_scope.
Local Open Scope list_scope.

(** ** JavaScript strings

    A JavaScript string is a sequence of UTF-16 code units; [length], [trim],
    [===] and [Array.prototype.includes] all work on code units. *)

Abbreviation jstring := (list N).

(** A literal of the source, written with its ASCII characters. *)
Definition js (s : string) : jstring := N_of_ascii <$> list_ascii_of_string s.

(** The code points [String.prototype.trim] strips: ECMAScript's WhiteSpace
    (TAB, VT, FF, ZWNBSP and the Unicode space separators) and LineTerminator
    (LF, CR, LS, PS). All of them are single code units. *)
Definition whiteSpace : list N :=
  [ 9; 11; 12; 65279; 32; 160; 5760;
    8192; 8193; 8194; 8195; 8196; 8197; 8198; 8199; 8200; 8201; 8202;
    8239; 8287; 12288;
    10; 13; 8232; 8233 ]%N.

Definition isWhiteSpace (c : N) : bool := bool_decide (c ∈ whiteSpace).

Fixpoint trimStart (s : jstring) : jstring :=
  match s with
  | [] => []
  | c :: rest => if isWhiteSpace c then trimStart rest else s
  end.

Definition trimEnd (s : jstring) : jstring := rev (trimStart (rev s)).

Definition trim (s : jstring) : jstring := trimEnd (trimStart s).

(** ** The zod fragment used by the schema

    A schema parses a value found at a path of the validated object and
    returns a status together with the issues it raised. A failed check marks
    the result [dirty] (parsing goes on); a value of the wrong kind makes it
    [aborted]. Refinements attached to a schema run unless the schema's own
    result is [aborted]. *)
Module Zod.

Inductive ParseStatus := valid | dirty | aborted.

Inductive ZodIssueCode := invalid_type | invalid_enum_value | too_small | custom.

(** A path leads to the offending value through object keys and array
    indices. *)
Inductive PathSegment := key (k : string) | index (i : nat).

#[global] Instance PathSegment_eq_dec : EqDecision PathSegment.
Proof. solve_decision. Defined.

(** [message] is [None] when the schema gives no message of its own and
    zod's default text for the issue code is shown. *)
Record ZodIssue := mkIssue {
  code : ZodIssueCode;
  path : list PathSegment;
  message : option string;
}.

Definition ParseReturn : Type := ParseStatus * list ZodIssue.

Definition Schema (A : Type) : Type := list PathSegment -> A -> ParseReturn.

Definition OK : ParseReturn := (valid, []).

Definition mergeStatus (a b : ParseStatus) : ParseStatus :=
  match a, b with
  | aborted, _ | _, aborted => aborted
  | dirty, _ | _, dirty => dirty
  | valid, valid => valid
  end.

(** [z.string()] with its chain of checks; the schema only uses [min]. *)
Inductive StringCheck := check_min (value : nat) (msg : option string).

Definition ZodString := list StringCheck.

Definition string_ : ZodString := [].

Definition min (value : nat) (msg : option string) (s : ZodString) : ZodString :=
  s ++ [check_min value msg].

Definition runCheck (p : list PathSegment) (data : jstring) (c : StringCheck) : ParseReturn :=
  match c with
  | check_min value msg =>
      if (List.length data <? value)%nat
      then (dirty, [mkIssue too_small p msg])
      else OK
  end.

Definition parseString (s : ZodString) : Schema jstring :=
  fun p data =>
    foldl (fun acc c =>
             let r := runCheck p data c in
             (mergeStatus acc.1 r.1, acc.2 ++ r.2))
          OK s.

(** [.nullable()]: [null] is accepted as it is. *)
Definition nullable {A} (inner : Schema A) : Schema (option A) :=
  fun p data =>
    match data with
    | None => OK
    | Some v => inner p v
    end.

(** [.optional()]: [undefined] is accepted as it is. *)
Definition optional {A} (inner : Schema A) : Schema (option A) :=
  fun p data =>
    match data with
    | None => OK
    | Some v => inner p v
    end.

Definition boolean : Schema bool := fun _ _ => OK.

(** [z.enum(values)]: a string outside [values] is an aborting issue. *)
Definition enum (values : list jstring) : Schema jstring :=
  fun p data =>
    if bool_decide (data ∈ values)
    then OK
    else (aborted, [mkIssue invalid_enum_value p None]).

(** [z.array(element)]: every element is parsed at its index. *)
Definition array {A} (element : Schema A) : Schema (list A) :=
  fun p data =>
    foldl (fun acc r => (mergeStatus acc.1 r.1, acc.2 ++ r.2)) OK
          (imap (fun i v => element (p ++ [index i]) v) data).

(** One key of [z.object({...})]. *)
Definition field {A B} (k : string) (get : A -> B) (s : Schema B) : Schema A :=
  fun p data => s (p ++ [key k]) (get data).

(** [z.object(shape)]: every key is parsed, in the order of the shape, and
    the issues of all of them are kept; the statuses are merged. *)
Definition object {A} (shape : list (Schema A)) : Schema A :=
  fun p data =>
    foldl (fun acc r => (mergeStatus acc.1 r.1, acc.2 ++ r.2)) OK
          ((fun f => f p data) <$> shape).

(** [.superRefine((data, ctx) => ...)]: [refinement data] lists the issues
    the callback adds with [ctx.addIssue], their paths relative to the
    refined value. The callback is not called on an aborted result. *)
Definition superRefine {A} (refinement : A -> list ZodIssue) (inner : Schema A) : Schema A :=
  fun p data =>
    let r := inner p data in
    match r.1 with
    | aborted => r
    | st =>
        let added := (fun i => mkIssue (code i) (p ++ path i) (message i)) <$> refinement data in
        (match added with [] => st | _ => dirty end, r.2 ++ added)
    end.

(** [schema.safeParse(data)]: the issues, empty exactly on success. *)
Definition safeParse {A} (s : Schema A) (data : A) : list ZodIssue := (s [] data).2.

(** The messages reported on one top-level field. *)
Definition errorsOn (k : string) (issues : list ZodIssue) : list (option string) :=
  message <$> filter (fun i => path i = [key k]) issues.

End Zod.

(** ** schemas.ts *)
Module Schemas.
Import Zod.

(** The value handed to the schema: the form's values. [title] is a string
    or [null], [hasResume] a boolean or absent; [experienceLevel] is the
    string the enum check receives. *)
Record JobInfoFormData := mkFormData {
  name : jstring;
  title : option jstring;
  experienceLevel : jstring;
  technologies : list jstring;
  description : jstring;
  hasResume : option bool;
}.

(** [!data.hasResume]: absent and [false] are both falsy. *)
Definition falsy_flag (b : option bool) : bool :=
  match b with
  | Some true => false
  | _ => true
  end.

(** [!data.description]: only the empty string is falsy. *)
Definition falsy_string (s : jstring) : bool :=
  match s with [] => true | _ => false end.

Definition descriptionRefinement (data : JobInfoFormData) : list ZodIssue :=
  if falsy_flag (hasResume data)
     && (falsy_string (description data) || (List.length (trim (description data)) =? 0)%nat)
  then [mkIssue custom [key "description"] (Some "Required")]
  else [].

(** [experienceLevels] comes from the database schema module, which is not
    part of the sources at hand: it is a parameter. *)
Definition jobInfoSchema (experienceLevels : list jstring) : Schema JobInfoFormData :=
  superRefine descriptionRefinement
    (object
       [ field "name" name (parseString (min 1 (Some "Required") string_));
         field "title" title (nullable (parseString (min 1 None string_)));
         field "experienceLevel" experienceLevel (enum experienceLevels);
         field "technologies" technologies (array (parseString string_));
         field "description" description (parseString string_);
         field "hasResume" hasResume (optional boolean) ]).

Definition validate (experienceLevels : list jstring) (data : JobInfoFormData)
  : list ZodIssue :=
  safeParse (jobInfoSchema experienceLevels) data.

(** The form's TypeScript type gives [experienceLevel] one of the
    enumerated levels. *)
Definition wellTyped (experienceLevels : list jstring) (d : JobInfoFormData) : Prop :=
  experienceLevel d ∈ experienceLevels.

(** The same values with another [hasResume]. *)
Definition withHasResume (v : option bool) (d : JobInfoFormData) : JobInfoFormData :=
  mkFormData (name d) (title d) (experienceLevel d) (technologies d) (description d) v.

End Schemas.

(** ** components/JobInfoForm.tsx *)
Module JobInfoForm.
Import Schemas.

Definition AVAILABLE_TECHNOLOGIES : list jstring :=
  js <$> [ "React"; "Next.js"; "TypeScript"; "JavaScript"; "Node.js"; "Python";
           "PostgreSQL"; "MongoDB"; "Drizzle ORM"; "Prisma"; "TailwindCSS";
           "Docker"; "AWS"; "GraphQL"; "REST API" ].

(** What the handlers read of a browser [File]. *)
Record File := mkFile {
  file_name : jstring;
  file_type : jstring;
}.

#[global] Instance File_eq_dec : EqDecision File.
Proof. solve_decision. Defined.

(** A parsed JSON body. An array holds strings: the form field that
    receives it is typed [string[]]. Numbers are kept as integers; the
    handler only asks whether a value is truthy and whether it is an array. *)
#[local] Unset Elimination Schemes.
Inductive Json :=
| JNull
| JBool (b : bool)
| JNumber (n : Z)
| JString (s : jstring)
| JArray (items : list jstring)
| JObject (members : list (jstring * Json)).
#[local] Set Elimination Schemes.

(** The [Response] of [fetch]; [body] is [None] when the text is not JSON,
    so that [response.json()] rejects. *)
Record Response := mkResponse {
  status : nat;
  body : option Json;
}.

(** [response.ok]: the status is in the range 200-299. *)
Definition ok (r : Response) : bool := (200 <=? status r)%nat && (status r <=? 299)%nat.

(** How the awaited [fetch] settles: rejected on a transport error,
    resolved with a response otherwise. *)
Inductive FetchResult := rejected | resolved (r : Response).

(** The component's state: the form store and the [useState] cells. *)
Record State := mkState {
  values : JobInfoFormData;
  techInput : jstring;
  resumeFile : option File;
  isParsingResume : bool;
  useResumeMode : bool;
}.

(** What a handler does besides changing the state: the notifications it
    shows and the request it sends (console output is left out). *)
Inductive Effect :=
| toast_error (msg : string)
| toast_success (msg : string)
| toast_warning (msg : string)
| fetch_post (url : string) (field_name : string) (file : File).

(** *** Handlers as computations: state, output and exceptions *)

Inductive Completion (A : Type) := normal (a : A) | thrown.
Arguments normal {A} a.
Arguments thrown {A}.

Definition M (A : Type) : Type := State -> Completion A * State * list Effect.

#[global] Instance M_ret : MRet M := fun A a s => (normal a, s, []).

#[global] Instance M_bind : MBind M := fun A B k m s =>
  match m s with
  | (normal a, s1, out1) =>
      let '(c, s2, out2) := k a s1 in (c, s2, out1 ++ out2)
  | (thrown, s1, out1) => (thrown, s1, out1)
  end.

Definition throw {A} : M A := fun s => (thrown, s, []).

(** [try { body } catch { handler }] *)
Definition try_catch {A} (body handler : M A) : M A := fun s =>
  match body s with
  | (normal a, s1, out1) => (normal a, s1, out1)
  | (thrown, s1, out1) =>
      let '(c, s2, out2) := handler s1 in (c, s2, out1 ++ out2)
  end.

(** [try { body } finally { cleanup }] *)
Definition try_finally {A} (body : M A) (cleanup : M unit) : M A := fun s =>
  let '(c, s1, out1) := body s in
  match cleanup s1 with
  | (normal _, s2, out2) => (c, s2, out1 ++ out2)
  | (thrown, s2, out2) => (thrown, s2, out1 ++ out2)
  end.

Definition modify (f : State -> State) : M unit := fun s => (normal (), f s, []).
Definition emit (e : Effect) : M unit := fun s => (normal (), s, [e]).

Definition setTechInput (v : jstring) : M unit :=
  modify (fun s => mkState (values s) v (resumeFile s) (isParsingResume s) (useResumeMode s)).
Definition setResumeFile (v : option File) : M unit :=
  modify (fun s => mkState (values s) (techInput s) v (isParsingResume s) (useResumeMode s)).
Definition setIsParsingResume (v : bool) : M unit :=
  modify (fun s => mkState (values s) (techInput s) (resumeFile s) v (useResumeMode s)).
Definition setUseResumeMode (v : bool) : M unit :=
  modify (fun s => mkState (values s) (techInput s) (resumeFile s) (isParsingResume s) v).
Definition form_update (f : JobInfoFormData -> JobInfoFormData) : M unit :=
  modify (fun s => mkState (f (values s)) (techInput s) (resumeFile s)
                           (isParsingResume s) (useResumeMode s)).

(** [form.getValues("technologies")] *)
Definition getValues_technologies : M (list jstring) :=
  fun s => (normal (technologies (values s)), s, []).

(** [form.setValue("technologies", v)] *)
Definition setValue_technologies (v : list jstring) : M unit :=
  form_update (fun d => mkFormData (name d) (title d) (experienceLevel d) v
                                   (description d) (hasResume d)).

(** [form.setValue("hasResume", v)] *)
Definition setValue_hasResume (v : bool) : M unit :=
  form_update (withHasResume (Some v)).

(** [currentTechs.includes(tech)] *)
Definition includes (l : list jstring) (tech : jstring) : bool := bool_decide (tech ∈ l).

Definition addTechnology (tech : jstring) : M unit :=
  currentTechs ← getValues_technologies;
  (if negb (includes currentTechs tech)
   then setValue_technologies (currentTechs ++ [tech])
   else mret ());;
  setTechInput [].

Definition removeTechnology (tech : jstring) : M unit :=
  currentTechs ← getValues_technologies;
  setValue_technologies (filter (fun t => t ≠ tech) currentTechs).

Definition clearResume : M unit :=
  setResumeFile None;;
  setUseResumeMode false;;
  setValue_technologies [];;
  setValue_hasResume false.

(** *** handleResumeUpload

    The handler is asynchronous. Its state is only touched before the
    [await] of [fetch] and after the last [await] of each path, so it is
    split in two: [handleResumeUpload] runs up to the [fetch] and reports
    the request it is left waiting for, and [handleResumeUpload_resume] is
    the rest of the [try], with its [catch] and [finally], run when the
    request settles. *)

(** [data.skills]: reading a property of [null] throws; a duplicated key
    of a JSON object holds its last value; other values have no such
    property ([undefined], here [None]). *)
Definition property (k : jstring) (members : list (jstring * Json)) : option Json :=
  snd <$> last (filter (fun kv => kv.1 = k) members).

Definition get_skills (data : Json) : M (option Json) :=
  match data with
  | JNull => throw
  | JObject members => mret (property (js "skills") members)
  | _ => mret None
  end.

Definition truthy (v : option Json) : bool :=
  match v with
  | None | Some JNull => false
  | Some (JBool b) => b
  | Some (JNumber n) => negb (n =? 0)%Z
  | Some (JString s) => negb (bool_decide (s = []))
  | Some (JArray _) | Some (JObject _) => true
  end.

(** [Array.isArray(v)], with the elements when it holds. *)
Definition isArray (v : option Json) : option (list jstring) :=
  match v with
  | Some (JArray items) => Some items
  | _ => None
  end.

(** The first file of the input element, if any, is [Some file]. *)
Definition handleResumeUpload (file : option File) : M (option File) :=
  match file with
  | None => mret None
  | Some file =>
      if bool_decide (file_type file ≠ js "application/pdf")
      then
        emit (toast_error "Please upload a PDF file");;
        mret None
      else
        setResumeFile (Some file);;
        setIsParsingResume true;;
        setUseResumeMode true;;
        setValue_hasResume true;;
        emit (fetch_post "/api/parse-resume" "file" file);;
        mret (Some file)
  end.

Definition afterFetch (r : FetchResult) : M unit :=
  match r with
  | rejected => throw
  | resolved response =>
      if negb (ok response) then throw
      else
        match body response with
        | None => throw
        | Some data =>
            skills ← get_skills data;
            match (if truthy skills then isArray skills else None) with
            | Some items =>
                setValue_technologies items;;
                emit (toast_success
                        ("Found " ++ pretty (length items)
                                  ++ " technologies in your resume"))
            | None => emit (toast_warning "No technologies found in resume")
            end
        end
  end.

Definition handleResumeUpload_resume (r : FetchResult) : M unit :=
  try_finally
    (try_catch
       (afterFetch r)
       (emit (toast_error "Failed to parse resume. Please try again.");;
        setUseResumeMode false;;
        setResumeFile None))
    (setIsParsingResume false).

(** *** The form as a transition system

    Besides the component's state, the requests sent and not yet settled. *)
Record System := mkSystem {
  ui : State;
  inflight : list File;
}.

Inductive Event :=
| SelectFile (file : option File)
| Settle (i : nat) (r : FetchResult)
| AddTechnology (tech : jstring)
| RemoveTechnology (tech : jstring)
| ClearResume
| ChangeName (v : jstring)
| ChangeTitle (v : jstring)
| ChangeExperienceLevel (v : jstring)
| ChangeDescription (v : jstring).

Definition lift (m : M unit) (σ : System) : System * list Effect :=
  let '(_, s, out) := m (ui σ) in (mkSystem s (inflight σ), out).

(** What each event runs, whatever the state. *)
Definition dispatch (e : Event) (σ : System) : System * list Effect :=
  match e with
  | SelectFile file =>
      let '(c, s, out) := handleResumeUpload file (ui σ) in
      (mkSystem s (inflight σ ++ match c with normal (Some req) => [req] | _ => [] end),
       out)
  | Settle i r =>
      match inflight σ !! i with
      | None => (σ, [])
      | Some _ =>
          let '(_, s, out) := handleResumeUpload_resume r (ui σ) in
          (mkSystem s (delete i (inflight σ)), out)
      end
  | AddTechnology tech => lift (addTechnology tech) σ
  | RemoveTechnology tech => lift (removeTechnology tech) σ
  | ClearResume => lift clearResume σ
  | ChangeName v =>
      lift (form_update (fun d => mkFormData v (title d) (experienceLevel d)
                           (technologies d) (description d) (hasResume d))) σ
  | ChangeTitle v =>
      lift (form_update (fun d => mkFormData (name d)
                           (match v with [] => None | _ => Some v end)
                           (experienceLevel d) (technologies d) (description d)
                           (hasResume d))) σ
  | ChangeExperienceLevel v =>
      lift (form_update (fun d => mkFormData (name d) (title d) v
                           (technologies d) (description d) (hasResume d))) σ
  | ChangeDescription v =>
      lift (form_update (fun d => mkFormData (name d) (title d) (experienceLevel d)
                           (technologies d) v (hasResume d))) σ
  end.

(** The events the rendered form lets through: the file input and the clear
    button are disabled while a resume is being parsed, the clear button
    only exists next to an attached file, the technology select and the
    remove buttons are disabled in resume mode, the select only offers the
    available technologies not yet selected, and there is a remove button
    per selected technology. *)
Definition enabled (σ : System) (e : Event) : bool :=
  let s := ui σ in
  match e with
  | SelectFile _ => negb (isParsingResume s)
  | Settle i _ => bool_decide (is_Some (inflight σ !! i))
  | AddTechnology tech =>
      negb (useResumeMode s)
      && bool_decide (tech ∈ AVAILABLE_TECHNOLOGIES)
      && negb (includes (technologies (values s)) tech)
  | RemoveTechnology tech =>
      negb (useResumeMode s) && includes (technologies (values s)) tech
  | ClearResume => bool_decide (is_Some (resumeFile s)) && negb (isParsingResume s)
  | ChangeName _ | ChangeTitle _ | ChangeExperienceLevel _ | ChangeDescription _ => true
  end.

(** Running the handlers of a sequence of events. *)
Definition run (events : list Event) (σ : System) : System :=
  foldl (fun σ e => (dispatch e σ).1) σ events.

(** The same, through the rendered form: [None] when an event is not
    enabled in the state it arrives in. *)
Fixpoint runUI (events : list Event) (σ : System) : option System :=
  match events with
  | [] => Some σ
  | e :: rest => if enabled σ e then runUI rest (dispatch e σ).1 else None
  end.

(** The form as mounted for a new job description. *)
Definition defaultValues : JobInfoFormData :=
  mkFormData [] None (js "junior") [] [] (Some false).

Definition mount (v : JobInfoFormData) : System :=
  mkSystem (mkState v [] None false false) [].

Definition technologiesOf (σ : System) : list jstring := technologies (values (ui σ)).

(** *** The specification's vocabulary

    How an extraction attempt ends, as the specification classifies it: a
    network failure is a transport error or a status outside 200-299; a
    response is malformed when its body has no technology list under
    [skills]; otherwise the attempt succeeds with that list. *)
Inductive ExtractionOutcome :=
| NetworkFailure
| MalformedResponse
| Success (items : list jstring).

Definition classify (r : FetchResult) : ExtractionOutcome :=
  match r with
  | rejected => NetworkFailure
  | resolved response =>
      if ok response then
        match body response with
        | Some (JObject members) =>
            match property (js "skills") members with
            | Some (JArray items) => Success items
            | _ => MalformedResponse
            end
        | _ => MalformedResponse
        end
      else NetworkFailure
  end.

(** The response carries a JSON value other than [null]. *)
Definition hasJsonValue (r : FetchResult) : bool :=
  match r with
  | resolved (mkResponse _ (Some JNull)) | resolved (mkResponse _ None) | rejected => false
  | resolved (mkResponse _ (Some _)) => true
  end.

(** The list a settling request puts in the form, if it does. *)
Definition applied (e : Event) : option (list jstring) :=
  match e with
  | Settle _ r => match classify r with Success items => Some items | _ => None end
  | _ => None
  end.

(** The three states the rest of the upload handler can leave: after the
    [catch], after the warning, after the list is stored. *)
Definition failedState (s : State) : State :=
  mkState (values s) (techInput s) None false false.
Definition warnedState (s : State) : State :=
  mkState (values s) (techInput s) (resumeFile s) false (useResumeMode s).
Definition appliedState (items : list jstring) (s : State) : State :=
  mkState (mkFormData (name (values s)) (title (values s)) (experienceLevel (values s))
             items (description (values s)) (hasResume (values s)))
          (techInput s) (resumeFile s) false (useResumeMode s).

Definition stateAfter {A} (m : M A) (s : State) : State := (m s).1.2.
Definition effectsOf {A} (m : M A) (s : State) : list Effect := (m s).2.

(** A settling request that stores a list stores one without repeats. *)
Definition duplicateFree (e : Event) : bool :=
  match applied e with
  | Some items => bool_decide (NoDup items)
  | None => true
  end.

(** At most one request is awaited, and the parsing flag says whether one is. *)
Definition singleFlight (σ : System) : Prop :=
  (length (inflight σ) ≤ 1)%nat
  ∧ isParsingResume (ui σ) = bool_decide (inflight σ ≠ []).

Definition surfacesError (out : list Effect) : bool :=
  existsb (fun e => match e with toast_error _ => true | _ => false end) out.

Definition callsNetwork (out : list Effect) : bool :=
  existsb (fun e => match e with fetch_post _ _ _ => true | _ => false end) out.

(** *** TechnologyList.replaceAll, as the specification words it

    The list, deduplicated, each name at the position of its first
    occurrence; kept apart from the handler to compare the two. *)
Fixpoint dedupFirst (names : list jstring) : list jstring :=
  match names with
  | [] => []
  | n :: rest => n :: filter (fun m => m ≠ n) (dedupFirst rest)
  end.

End JobInfoForm.

(** ** The earlier schema

    The schema as it was before the resume upload: the description is a
    string of at least one character, and nothing is refined. The object
    keeps its known keys only, so a form value that carries [hasResume] is
    parsed as if it did not. *)
Module LegacySchemas.
Import Zod Schemas.

Definition jobInfoSchema (experienceLevels : list jstring) : Schema JobInfoFormData :=
  object
    [ field "name" name (parseString (min 1 (Some "Required") string_));
      field "title" title (nullable (parseString (min 1 None string_)));
      field "experienceLevel" experienceLevel (enum experienceLevels);
      field "technologies" technologies (array (parseString string_));
      field "description" description (parseString (min 1 (Some "Required") string_)) ].

Definition validate (experienceLevels : list jstring) (data : JobInfoFormData)
  : list ZodIssue :=
  safeParse (jobInfoSchema experienceLevels) data.

End LegacySchemas.

(** ** What the form renders from its state *)
Module FormViews.
Import Schemas JobInfoForm.

(** The technologies the select offers: the available ones not yet in the
    list. *)
Definition options (s : State) : list jstring :=
  filter (fun tech => negb (includes (technologies (values s)) tech) = true)
         AVAILABLE_TECHNOLOGIES.

(** The text of the upload button. *)
Definition uploadLabel (s : State) : string :=
  if isParsingResume s then "Parsing Resume..."
  else match resumeFile s with
       | Some _ => "Change Resume"
       | None => "Upload Resume"
       end.

(** The description is labelled "(Optional)" in resume mode and marked
    with an asterisk otherwise. *)
Definition descriptionLabelledOptional (s : State) : bool := useResumeMode s.

(** The events of the four text and select fields. *)
Definition isFieldEdit (e : Event) : bool :=
  match e with
  | ChangeName _ | ChangeTitle _ | ChangeExperienceLevel _ | ChangeDescription _ => true
  | _ => false
  end.

(** The fields the user types or selects, the technology list apart. *)
Definition entered (s : State) : jstring * option jstring * jstring * jstring :=
  (name (values s), title (values s), experienceLevel (values s), description (values s)).

(** The flags of the upload workflow agree: resume mode goes with an
    attached file and with [hasResume], and parsing happens in resume mode. *)
Definition coherent (σ : System) : Prop :=
  (useResumeMode (ui σ) = true ↔ is_Some (resumeFile (ui σ)))
  ∧ (useResumeMode (ui σ) = true -> hasResume (values (ui σ)) = Some true)
  ∧ (isParsingResume (ui σ) = true -> useResumeMode (ui σ) = true).

End FormViews.

(** ** Sample data *)
Module Samples.
Import Schemas JobInfoForm.

Definition levels : list jstring := [js "junior"; js "mid-level"; js "senior"].

Definition pdf : File := mkFile (js "cv.pdf") (js "application/pdf").
Definition pdf2 : File := mkFile (js "cv2.pdf") (js "application/pdf").
Definition text : File := mkFile (js "notes.txt") (js "text/plain").

(** A 200 response whose body is an object with the given [skills]. *)
Definition found (items : list jstring) : FetchResult :=
  resolved (mkResponse 200 (Some (JObject [(js "skills", JArray items)]))).

(** A 200 response whose body is the empty object. *)
Definition noSkills : FetchResult := resolved (mkResponse 200 (Some (JObject []))).

Definition serverError : FetchResult := resolved (mkResponse 500 None).

Definition blankName : JobInfoFormData :=
  mkFormData (js " ") None (js "junior") [] (js "A role") (Some false).

Definition emptyTitle : JobInfoFormData :=
  mkFormData (js "Backend") (Some []) (js "junior") [] (js "A role") (Some false).

Definition edited : JobInfoFormData :=
  mkFormData (js "Backend") None (js "senior") [js "Go"] (js "  ") None.
End Samples.

(** ** app/api/parse-resume/route.ts

    The route the form posts the resume to: it forwards the file to the
    extraction service and relays the answer. *)
Module Route.
Import JobInfoForm.

(** An entry of a [FormData] is a file or a string. *)
Inductive FormDataEntryValue := entry_file (f : File) | entry_text (text : jstring).

(** [formData.get(name)]: the first entry of that name, or [null]. *)
Definition get (k : jstring) (formData : list (jstring * FormDataEntryValue))
  : option FormDataEntryValue :=
  snd <$> head (filter (fun kv => kv.1 = k) formData).

(** A settled promise: fulfilled with a value, or rejected with an error of
    which the handler reads [String(error)]. *)
Inductive Settled (A : Type) := fulfilled (a : A) | failed (error : jstring).
Arguments fulfilled {A} a.
Arguments failed {A} error.

(** What the handler reads of the extraction service's response: its
    status, and its body as text or as JSON. *)
Record ExternalResponse := mkExternal {
  ext_status : nat;
  ext_text : Settled jstring;
  ext_json : Settled Json;
}.

(** An answer of the route: its status and the value handed to
    [NextResponse.json] to be serialised as its body. *)
Record NextResponse := mkNextResponse {
  res_status : nat;
  res_body : Json;
}.

Definition okStatus (status : nat) : bool := (200 <=? status)%nat && (status <=? 299)%nat.

(** The statuses a response with a body cannot have. *)
Definition nullBodyStatus (status : nat) : bool :=
  bool_decide (status ∈ [101; 103; 204; 205; 304]%nat).

(** [NextResponse.json(body, { status })]: the response constructor throws
    on a status outside 200-599 and on a null body status; [statusError]
    is the text of what it throws. *)
Definition NextResponse_json (statusError : nat -> jstring) (body : Json) (status : nat)
  : Settled NextResponse :=
  if (status <? 200)%nat || (599 <? status)%nat || nullBodyStatus status
  then failed (statusError status)
  else fulfilled (mkNextResponse status body).

Definition errorBody (error : string) (details : option jstring) : Json :=
  JObject ((js "error", JString (js error))
           :: match details with
              | Some d => [(js "details", JString d)]
              | None => []
              end).

(** The [try] block, given how [request.formData()] and the forwarded
    request settle. *)
Definition tryBlock (statusError : nat -> jstring)
    (formData : Settled (list (jstring * FormDataEntryValue)))
    (external : Settled ExternalResponse)
  : Settled NextResponse * list Effect :=
  match formData with
  | failed e => (failed e, [])
  | fulfilled formData =>
      match get (js "file") formData with
      | Some (entry_file file) =>
          let sent := [fetch_post "http://localhost:5000/parse-resume" "resume" file] in
          match external with
          | failed e => (failed e, sent)
          | fulfilled response =>
              if negb (okStatus (ext_status response))
              then
                match ext_text response with
                | failed e => (failed e, sent)
                | fulfilled errorText =>
                    (NextResponse_json statusError
                       (errorBody "Failed to parse resume" (Some errorText))
                       (ext_status response),
                     sent)
                end
              else
                match ext_json response with
                | failed e => (failed e, sent)
                | fulfilled data => (NextResponse_json statusError data 200, sent)
                end
          end
      | _ =>
          (NextResponse_json statusError (errorBody "No file provided" None) 400, [])
      end
  end.

Definition POST (statusError : nat -> jstring)
    (formData : Settled (list (jstring * FormDataEntryValue)))
    (external : Settled ExternalResponse)
  : Settled NextResponse * list Effect :=
  match tryBlock statusError formData external with
  | (fulfilled res, out) => (fulfilled res, out)
  | (failed error, out) =>
      (NextResponse_json statusError (errorBody "Internal server error" (Some error)) 500,
       out)
  end.

(** The file of the request and the JSON of the service's answer, when the
    request carries a file under [file] and the service answers with a status
    in 200-299 and a JSON body. *)
Definition relayed (formData : Settled (list (jstring * FormDataEntryValue)))
    (external : Settled ExternalResponse) : option (File * Json) :=
  match formData, external with
  | fulfilled formData, fulfilled response =>
      match get (js "file") formData, ext_json response with
      | Some (entry_file file), fulfilled data =>
          if okStatus (ext_status response) then Some (file, data) else None
      | _, _ => None
      end
  | _, _ => None
  end.

End Route.

(** ** The stand-alone PDF uploader component *)
Module PdfUploader.
Import JobInfoForm.

Record Uploader := mkUploader {
  file : option File;
  isUploading : bool;
}.

Inductive UploaderEffect :=
| alert (msg : string)
| upload_post (url : string) (field_name : string) (f : File).

Definition handleFileChange (selectedFile : option File) (s : Uploader)
  : Uploader * list UploaderEffect :=
  match selectedFile with
  | Some f =>
      if bool_decide (file_type f = js "application/pdf")
      then (mkUploader (Some f) (isUploading s), [])
      else (mkUploader None (isUploading s), [alert "Please select a PDF file."])
  | None => (mkUploader None (isUploading s), [alert "Please select a PDF file."])
  end.

(** [handleUpload] up to the [await] of [fetch], with the file of the
    request it is left waiting for. *)
Definition handleUpload (s : Uploader) : Uploader * list UploaderEffect * option File :=
  match file s with
  | None => (s, [alert "No file selected!"], None)
  | Some f => (mkUploader (file s) true, [upload_post "/api/upload" "file" f], Some f)
  end.

(** The rest of [handleUpload]: the response's JSON is read, whatever its
    status; the [finally] clears the flag. *)
Definition handleUpload_resume (r : FetchResult) (s : Uploader)
  : Uploader * list UploaderEffect :=
  (mkUploader (file s) false,
   match r with
   | rejected => [alert "Upload failed. Check console for details."]
   | resolved response =>
       match body response with
       | None => [alert "Upload failed. Check console for details."]
       | Some _ => [alert "Upload successful! Check console for response."]
       end
   end).

Record UploaderSystem := mkUploaderSystem {
  uploader : Uploader;
  uploads : list File;
}.

Inductive UploaderEvent :=
| ChooseFile (selectedFile : option File)
| ClickUpload
| UploadSettles (i : nat) (r : FetchResult).

Definition step (e : UploaderEvent) (σ : UploaderSystem)
  : UploaderSystem * list UploaderEffect :=
  match e with
  | ChooseFile selectedFile =>
      let '(s, out) := handleFileChange selectedFile (uploader σ) in
      (mkUploaderSystem s (uploads σ), out)
  | ClickUpload =>
      let '(s, out, req) := handleUpload (uploader σ) in
      (mkUploaderSystem s (uploads σ ++ match req with Some f => [f] | None => [] end), out)
  | UploadSettles i r =>
      match uploads σ !! i with
      | None => (σ, [])
      | Some _ =>
          let '(s, out) := handleUpload_resume r (uploader σ) in
          (mkUploaderSystem s (delete i (uploads σ)), out)
      end
  end.

(** The input is disabled while uploading; the button is disabled without a
    file and while uploading. *)
Definition offered (σ : UploaderSystem) (e : UploaderEvent) : bool :=
  match e with
  | ChooseFile _ => negb (isUploading (uploader σ))
  | ClickUpload =>
      bool_decide (is_Some (file (uploader σ))) && negb (isUploading (uploader σ))
  | UploadSettles i _ => bool_decide (is_Some (uploads σ !! i))
  end.

(** The handlers of a sequence of events, with all they emit. *)
Fixpoint steps (events : list UploaderEvent) (σ : UploaderSystem)
  : UploaderSystem * list UploaderEffect :=
  match events with
  | [] => (σ, [])
  | e :: rest =>
      let '(σ1, out1) := step e σ in
      let '(σ2, out2) := steps rest σ1 in
      (σ2, out1 ++ out2)
  end.

(** The same through the rendered component. *)
Fixpoint stepsUI (events : list UploaderEvent) (σ : UploaderSystem)
  : option UploaderSystem :=
  match events with
  | [] => Some σ
  | e :: rest => if offered σ e then stepsUI rest (step e σ).1 else None
  end.

Definition initial : UploaderSystem := mkUploaderSystem (mkUploader None false) [].

Definition isPdf (f : File) : bool := bool_decide (file_type f = js "application/pdf").

(** The files of the requests among the effects. *)
Definition posted (out : list UploaderEffect) : list File :=
  omap (fun e => match e with upload_post _ _ f => Some f | alert _ => None end) out.

End PdfUploader.
(** ** The schema on the values the form can hold

    The extraction handler stores the list it received without looking at
    its elements, so the technology list handed to the schema can hold
    values that are not strings. [z.array(z.string())] reports each of them
    at its index and aborts the object. *)
Module RawSchemas.
Import Zod.

(** The kinds of JSON value other than a string. *)
Inductive Kind := k_null | k_boolean | k_number | k_array | k_object.

(** An element of the technology list: a string, or a value of another
    kind, of which the schema reads the kind only. *)
Inductive Element := text (s : jstring) | other (k : Kind).

Definition isText (e : Element) : bool :=
  match e with text _ => true | other _ => false end.

Record RawFormData := mkRaw {
  name : jstring;
  title : option jstring;
  experienceLevel : jstring;
  technologies : list Element;
  description : jstring;
  hasResume : option bool;
}.

(** [z.string()] met with a value of any kind: one that is not a string is
    an aborting issue. *)
Definition parseElement (s : ZodString) : Schema Element :=
  fun p e =>
    match e with
    | text v => parseString s p v
    | other _ => (aborted, [mkIssue invalid_type p None])
    end.

Definition descriptionRefinement (data : RawFormData) : list ZodIssue :=
  if Schemas.falsy_flag (hasResume data)
     && (Schemas.falsy_string (description data)
         || (List.length (trim (description data)) =? 0)%nat)
  then [mkIssue custom [key "description"] (Some "Required")]
  else [].

Definition jobInfoSchema (experienceLevels : list jstring) : Schema RawFormData :=
  superRefine descriptionRefinement
    (object
       [ field "name" name (parseString (min 1 (Some "Required") string_));
         field "title" title (nullable (parseString (min 1 None string_)));
         field "experienceLevel" experienceLevel (enum experienceLevels);
         field "technologies" technologies (array (parseElement string_));
         field "description" description (parseString string_);
         field "hasResume" hasResume (optional boolean) ]).

Definition validate (experienceLevels : list jstring) (data : RawFormData)
  : list ZodIssue :=
  safeParse (jobInfoSchema experienceLevels) data.

(** A form value whose technologies are strings, among the values the form
    can hold. *)
Definition ofTyped (d : Schemas.JobInfoFormData) : RawFormData :=
  mkRaw (Schemas.name d) (Schemas.title d) (Schemas.experienceLevel d)
        (text <$> Schemas.technologies d) (Schemas.description d) (Schemas.hasResume d).

(** The issues on the elements of a list that are not strings, the first
    element standing at index [n]. *)
Fixpoint elementIssues (n : nat) (l : list Element) : list ZodIssue :=
  match l with
  | [] => []
  | text _ :: rest => elementIssues (S n) rest
  | other _ :: rest =>
      mkIssue invalid_type [key "technologies"; index n] None :: elementIssues (S n) rest
  end.

End RawSchemas.

(** ** Request tokens

    The specification numbers the extraction requests: each request is
    issued with the next number, its token. The component keeps no such
    number; it is followed here beside the form's state, with the tokens of
    the requests not yet settled. *)
Module Tokens.
Import JobInfoForm.






End Tokens.

(** ** More sample data *)
Module MoreSamples.
Import Schemas JobInfoForm Route PdfUploader Tokens Samples.

(** A form with a name, a description and two technologies selected by
    hand. *)
Definition filled : System :=
  mount (mkFormData (js "Backend") None (js "senior") [js "Docker"; js "AWS"]
                    (js "A role") (Some false)).

Definition noText : nat -> jstring := fun _ => [].

(** A request with the resume under [file]. *)
Definition withFile : list (jstring * FormDataEntryValue) :=
  [(js "file", entry_file pdf)].

(** A request whose [file] entry is a string. *)
Definition withText : list (jstring * FormDataEntryValue) :=
  [(js "file", entry_text (js "cv.pdf"))].

(** The extraction service refusing the document. *)
Definition unprocessable : ExternalResponse :=
  mkExternal 422 (fulfilled (js "no text layer")) (failed (js "SyntaxError")).


(** A form value after an extraction that reported a number and [null]
    among the names. *)
Definition mixedList : RawSchemas.RawFormData :=
  RawSchemas.mkRaw (js "Backend") None (js "junior")
    [RawSchemas.other RawSchemas.k_number; RawSchemas.text (js "Go");
     RawSchemas.other RawSchemas.k_null]
    [] (Some true).

End MoreSamples.

(** * Properties *)

(** ** Strings *)

Lemma trim_empty : trim [] = [].
Proof. reflexivity. Qed.

Lemma length_zero_iff_nil (s : jstring) : (List.length s =? 0)%nat = bool_decide (s = []).
Proof. destruct s; reflexivity. Qed.

(** ** The validation schema *)
Section Validation.
Import Zod Schemas.

Variable experienceLevels : list jstring.

Lemma merge_all_OK {A} (g : nat -> A -> ParseReturn) (data : list A) :
  (∀ i v, g i v = OK) ->
  foldl (fun acc r => (mergeStatus acc.1 r.1, acc.2 ++ r.2)) OK (imap g data) = OK.
Proof.
  revert g. induction data as [|x data IH]; intros g Hg; [reflexivity|].
  cbn [imap foldl]. rewrite Hg. cbn. apply IH. intros i v. apply Hg.
Qed.

Lemma array_of_strings_OK p (data : list jstring) :
  array (parseString string_) p data = OK.
Proof. unfold array. apply merge_all_OK. reflexivity. Qed.

(** When the refinement's condition holds. *)
Lemma descriptionRefinement_spec d :
  descriptionRefinement d =
    if falsy_flag (hasResume d) && bool_decide (trim (description d) = [])
    then [mkIssue custom [key "description"] (Some "Required")]
    else [].
Proof.
  unfold descriptionRefinement. rewrite length_zero_iff_nil.
  destruct (description d); [|reflexivity].
  rewrite trim_empty. reflexivity.
Qed.

(** The issues of a form value, key by key. *)
Lemma validate_issues d :
  validate experienceLevels d =
    (match name d with
     | [] => [mkIssue too_small [key "name"] (Some "Required")]
     | _ => []
     end)
    ++ (match title d with
        | Some [] => [mkIssue too_small [key "title"] None]
        | _ => []
        end)
    ++ (if bool_decide (experienceLevel d ∈ experienceLevels)
        then descriptionRefinement d
        else [mkIssue invalid_enum_value [key "experienceLevel"] None]).
Proof.
  unfold validate, safeParse, jobInfoSchema, superRefine, object, field.
  cbn [fmap list_fmap foldl].
  rewrite array_of_strings_OK.
  unfold enum, nullable, optional, boolean, parseString, min, string_, runCheck.
  cbn [app foldl].
  rewrite !descriptionRefinement_spec.
  destruct (name d) as [|c n], (title d) as [[|c' t]|],
    (bool_decide (experienceLevel d ∈ experienceLevels)),
    (hasResume d) as [[]|], (bool_decide (trim (description d) = []));
    reflexivity.
Qed.

Ltac by_cases d :=
  rewrite validate_issues, descriptionRefinement_spec; unfold errorsOn;
  destruct (name d) as [|? ?], (title d) as [[|? ?]|],
    (bool_decide (experienceLevel d ∈ experienceLevels)),
    (hasResume d) as [[]|], (bool_decide (trim (description d) = []));
  reflexivity.

Lemma errorsOn_name d :
  errorsOn "name" (validate experienceLevels d) =
    match name d with [] => [Some "Required"] | _ => [] end.
Proof. by_cases d. Qed.

Lemma errorsOn_title d :
  errorsOn "title" (validate experienceLevels d) =
    match title d with Some [] => [None] | _ => [] end.
Proof. by_cases d. Qed.

Lemma errorsOn_experienceLevel d :
  errorsOn "experienceLevel" (validate experienceLevels d) =
    if bool_decide (experienceLevel d ∈ experienceLevels) then [] else [None].
Proof. by_cases d. Qed.

Lemma errorsOn_technologies d :
  errorsOn "technologies" (validate experienceLevels d) = [].
Proof. by_cases d. Qed.

Lemma errorsOn_description d :
  errorsOn "description" (validate experienceLevels d) =
    if bool_decide (experienceLevel d ∈ experienceLevels)
       && falsy_flag (hasResume d)
       && bool_decide (trim (description d) = [])
    then [Some "Required"]
    else [].
Proof. by_cases d. Qed.

(** With a resume, the description is never reported, whatever the other
    fields hold. *)
Lemma description_free_with_resume d :
  hasResume d = Some true ->
  errorsOn "description" (validate experienceLevels d) = [].
Proof.
  intros H. rewrite errorsOn_description, H. cbn.
  rewrite andb_false_r. reflexivity.
Qed.

(** Outside the form's type: an [experienceLevel] that is not one of the
    levels aborts the object, the refinement is not run and the
    description is not looked at. *)
Lemma description_unchecked_on_unknown_level d :
  experienceLevel d ∉ experienceLevels ->
  errorsOn "description" (validate experienceLevels d) = []
  ∧ errorsOn "experienceLevel" (validate experienceLevels d) = [None].
Proof.
  intros H. rewrite errorsOn_description, errorsOn_experienceLevel.
  rewrite bool_decide_eq_false_2 by assumption. split; reflexivity.
Qed.

(** C1. For every draft (a form value of the form's type: its experience
    level one of the enumerated levels, its [hasResume] a boolean), the
    schema reports "Required" on [description] if and only if [hasResume]
    is false and the description is empty after trimming, and reports
    nothing on [description] otherwise; in particular nothing is reported
    on it when [hasResume] is true, whatever it holds. *)
Theorem description_required_iff d b :
  wellTyped experienceLevels d ->
  hasResume d = Some b ->
  (errorsOn "description" (validate experienceLevels d) = [Some "Required"]
     ↔ b = false ∧ trim (description d) = [])
  ∧ (errorsOn "description" (validate experienceLevels d) = []
     ↔ ¬ (b = false ∧ trim (description d) = []))
  ∧ (b = true -> errorsOn "description" (validate experienceLevels d) = []).
Proof.
  unfold wellTyped. intros Hlevel Hb.
  rewrite errorsOn_description, Hb, (bool_decide_eq_true_2 _ Hlevel).
  destruct b; cbn.
  - split; [|split].
    + split; [discriminate | intros [H _]; discriminate].
    + split; [intros _ [H _]; discriminate | reflexivity].
    + reflexivity.
  - case_bool_decide as Ht; (split; [|split]).
    + split; auto.
    + split; [discriminate | intros Hn; destruct Hn; auto].
    + discriminate.
    + split; [discriminate | intros [_ Ht']; contradiction].
    + split; [intros _ [_ Ht']; contradiction | reflexivity].
    + discriminate.
Qed.

(** C10. For every draft in which [hasResume] is absent (a form value of
    the form's type otherwise), validation gives exactly the issues it
    gives with [hasResume] false: "Required" on [description] when the
    description is empty or only white space, nothing on it otherwise. *)
Theorem absent_hasResume_like_false d :
  wellTyped experienceLevels d ->
  hasResume d = None ->
  validate experienceLevels d = validate experienceLevels (withHasResume (Some false) d)
  ∧ (trim (description d) = [] ->
     errorsOn "description" (validate experienceLevels d) = [Some "Required"])
  ∧ (trim (description d) ≠ [] ->
     errorsOn "description" (validate experienceLevels d) = []).
Proof.
  unfold wellTyped. intros Hlevel Hnone. split; [|split].
  - rewrite !validate_issues, !descriptionRefinement_spec. cbn. rewrite Hnone.
    reflexivity.
  - intros Ht. rewrite errorsOn_description, Hnone, (bool_decide_eq_true_2 _ Hlevel),
      (bool_decide_eq_true_2 _ Ht). reflexivity.
  - intros Ht. rewrite errorsOn_description, Hnone, (bool_decide_eq_true_2 _ Hlevel),
      (bool_decide_eq_false_2 _ Ht). reflexivity.
Qed.

(** C7, as the schema has it. The name is not trimmed: "Required" is
    reported on [name] if and only if the name is the empty string, and
    nothing is reported on it otherwise. *)
Theorem name_required_iff_empty d :
  (errorsOn "name" (validate experienceLevels d) = [Some "Required"] ↔ name d = [])
  ∧ (errorsOn "name" (validate experienceLevels d) = [] ↔ name d ≠ []).
Proof.
  rewrite errorsOn_name. destruct (name d); repeat split; try discriminate; auto.
  intros H. contradiction.
Qed.

(** C9, as the schema has it. Nothing is reported on [title] when it is
    [null] or a string of at least one character; the empty string is
    reported as too short, with zod's own message. *)
Theorem title_errors d :
  errorsOn "title" (validate experienceLevels d) =
    match title d with
    | Some [] => [None]
    | Some (_ :: _) | None => []
    end.
Proof. rewrite errorsOn_title. destruct (title d) as [[|]|]; reflexivity. Qed.

End Validation.

(** *** The schema on sample values *)
Section ValidationExamples.
Import Zod Schemas Samples.

Lemma junior_is_a_level : js "junior" ∈ levels.
Proof. apply list_elem_of_here. Defined.

Lemma senior_is_a_level : js "senior" ∈ levels.
Proof. do 2 apply list_elem_of_further. apply list_elem_of_here. Defined.

(** The form as first rendered, submitted untouched: "Required" on the
    description. *)
Lemma description_required_iff_witness :
  wellTyped levels JobInfoForm.defaultValues
  ∧ hasResume JobInfoForm.defaultValues = Some false
  ∧ errorsOn "description" (validate levels JobInfoForm.defaultValues) = [Some "Required"].
Proof.
  split; [exact junior_is_a_level | split; [reflexivity |]].
  apply (description_required_iff levels JobInfoForm.defaultValues false
           junior_is_a_level eq_refl).
  split; reflexivity.
Defined.

(** An existing job description opened for editing has no [hasResume]. *)
Lemma absent_hasResume_like_false_witness :
  wellTyped levels edited
  ∧ hasResume edited = None
  ∧ errorsOn "description" (validate levels edited) = [Some "Required"].
Proof.
  split; [exact senior_is_a_level | split; [reflexivity |]].
  apply (absent_hasResume_like_false levels edited senior_is_a_level eq_refl).
  reflexivity.
Defined.

(** C7, as stated, fails on a name of one space: it is empty after
    trimming and nothing is reported on it. *)
Lemma blank_name_accepted :
  ¬ (Some "Required" ∈ errorsOn "name" (validate levels blankName)
     ↔ trim (name blankName) = []).
Proof.
  intros [_ H]. specialize (H eq_refl).
  assert (E : errorsOn "name" (validate levels blankName) = []) by reflexivity.
  rewrite E in H. inversion H.
Qed.

(** C9, as stated, fails on the empty title: an issue is reported on it. *)
Lemma empty_title_reported :
  errorsOn "title" (validate levels emptyTitle) ≠ [].
Proof. discriminate. Qed.

End ValidationExamples.

(** ** The technology list and the resume workflow *)
Section Form.
Import Schemas JobInfoForm.

(** *** The list handlers *)

Lemma addTechnology_run tech s :
  addTechnology tech s =
    (normal (),
     mkState (mkFormData (name (values s)) (title (values s)) (experienceLevel (values s))
                (if includes (technologies (values s)) tech
                 then technologies (values s)
                 else technologies (values s) ++ [tech])
                (description (values s)) (hasResume (values s)))
             [] (resumeFile s) (isParsingResume s) (useResumeMode s),
     []).
Proof.
  destruct s as [[n t e l d h] ti f p u].
  unfold addTechnology, mbind, M_bind, getValues_technologies. cbn.
  destruct (includes l tech); reflexivity.
Qed.

Lemma removeTechnology_run tech s :
  removeTechnology tech s =
    (normal (),
     mkState (mkFormData (name (values s)) (title (values s)) (experienceLevel (values s))
                (filter (fun t => t ≠ tech) (technologies (values s)))
                (description (values s)) (hasResume (values s)))
             (techInput s) (resumeFile s) (isParsingResume s) (useResumeMode s),
     []).
Proof. destruct s as [[n t e l d h] ti f p u]. reflexivity. Qed.

Lemma clearResume_run s :
  clearResume s =
    (normal (),
     mkState (mkFormData (name (values s)) (title (values s)) (experienceLevel (values s))
                [] (description (values s)) (Some false))
             (techInput s) None (isParsingResume s) false,
     []).
Proof. destruct s as [[n t e l d h] ti f p u]. reflexivity. Qed.

(** *** The upload handler *)

Lemma handleResumeUpload_run file s :
  handleResumeUpload file s =
    match file with
    | None => (normal None, s, [])
    | Some f =>
        if bool_decide (file_type f = js "application/pdf")
        then (normal (Some f),
              mkState (withHasResume (Some true) (values s)) (techInput s) (Some f) true true,
              [fetch_post "/api/parse-resume" "file" f])
        else (normal None, s, [toast_error "Please upload a PDF file"])
    end.
Proof.
  destruct s as [v ti rf p u], file as [f|]; [|reflexivity].
  unfold handleResumeUpload.
  destruct (decide (file_type f = js "application/pdf")) as [E|E].
  - rewrite (bool_decide_eq_true_2 _ E), bool_decide_eq_false_2 by auto. reflexivity.
  - rewrite (bool_decide_eq_false_2 _ E), bool_decide_eq_true_2 by auto. reflexivity.
Qed.

Lemma handleResumeUpload_resume_run r s :
  handleResumeUpload_resume r s =
    match classify r with
    | Success items =>
        (normal (), appliedState items s,
         [toast_success ("Found " ++ pretty (length items) ++ " technologies in your resume")])
    | MalformedResponse =>
        if hasJsonValue r
        then (normal (), warnedState s, [toast_warning "No technologies found in resume"])
        else (normal (), failedState s,
              [toast_error "Failed to parse resume. Please try again."])
    | NetworkFailure =>
        (normal (), failedState s, [toast_error "Failed to parse resume. Please try again."])
    end.
Proof.
  destruct s as [[n t e l d h] ti f p u].
  destruct r as [|[st [data|]]]; [reflexivity| |];
    unfold handleResumeUpload_resume, afterFetch, classify, hasJsonValue;
    cbn [body]; (destruct (ok _); [|reflexivity]); [|reflexivity].
  destruct data as [|b|z|str|items|members]; try reflexivity.
  unfold get_skills, try_finally, try_catch, mbind, M_bind, mret, M_ret.
  destruct (property (js "skills") members) as [[|b|z|str|items|ms]|];
    try reflexivity.
  - destruct b; reflexivity.
  - cbn. destruct (z =? 0)%Z; reflexivity.
  - destruct str; reflexivity.
Qed.

(** *** Claims on the technology list *)

(** C8. [addTechnology] leaves the list as it is when the name is already
    in it (exact match) and appends the name at the end otherwise; it never
    fails; a second add of the same name changes nothing, so that after
    adding a new name twice the list is one element longer than before the
    first add and the same after the second as after the first. *)
Theorem addTechnology_idempotent tech s :
  let l := technologies (values s) in
  let s1 := stateAfter (addTechnology tech) s in
  let s2 := stateAfter (addTechnology tech) s1 in
  (addTechnology tech s).1.1 = normal ()
  ∧ (tech ∈ l -> technologies (values s1) = l)
  ∧ (tech ∉ l -> technologies (values s1) = l ++ [tech]
                 ∧ length (technologies (values s1)) = S (length l))
  ∧ s2 = s1
  ∧ length (technologies (values s2)) = length (technologies (values s1)).
Proof.
  cbv zeta. unfold stateAfter. rewrite !addTechnology_run. cbn.
  unfold includes.
  assert (Hlast : tech ∈ technologies (values s) ++ [tech])
    by (apply elem_of_app; right; apply list_elem_of_here).
  destruct (decide (tech ∈ technologies (values s))) as [Hin|Hout].
  - rewrite !(bool_decide_eq_true_2 _ Hin).
    repeat split; intros; try reflexivity; contradiction.
  - rewrite !(bool_decide_eq_false_2 _ Hout), !(bool_decide_eq_true_2 _ Hlast).
    repeat split; intros; try reflexivity; try contradiction.
    rewrite length_app. cbn. lia.
Qed.

(** The specification's [replaceAll] has no repeats and changes nothing in
    a list that has none. *)
Lemma elem_of_dedupFirst x l : x ∈ dedupFirst l ↔ x ∈ l.
Proof.
  induction l as [|y l IH]; [reflexivity|]. cbn [dedupFirst].
  rewrite !elem_of_cons, list_elem_of_filter, IH.
  destruct (decide (x = y)); tauto.
Qed.

Lemma NoDup_dedupFirst l : NoDup (dedupFirst l).
Proof.
  induction l as [|y l IH]; [constructor|]. cbn [dedupFirst].
  constructor; [|apply NoDup_filter, IH].
  rewrite list_elem_of_filter. tauto.
Qed.

Lemma dedupFirst_id l : dedupFirst l = l ↔ NoDup l.
Proof.
  split.
  - intros E. rewrite <- E. apply NoDup_dedupFirst.
  - induction 1 as [|y l Hy Hl IH]; [reflexivity|]. cbn [dedupFirst].
    rewrite IH. f_equal.
    clear IH Hl. induction l as [|z l IH]; [reflexivity|].
    rewrite not_elem_of_cons in Hy. destruct Hy as [Hz Hy].
    rewrite filter_cons_True by congruence. f_equal. apply IH, Hy.
Qed.

(** C3, as the handler has it. A successful extraction stores the list it
    received as the whole technology list, exactly as reported and without
    removing repeats; the result is the deduplicated list precisely when
    the reported list has no repeats. *)
Theorem extraction_stores_list_verbatim r items s :
  classify r = Success items ->
  technologies (values (stateAfter (handleResumeUpload_resume r) s)) = items
  ∧ (technologies (values (stateAfter (handleResumeUpload_resume r) s)) = dedupFirst items
     ↔ NoDup items).
Proof.
  intros Hr. unfold stateAfter. rewrite handleResumeUpload_resume_run, Hr. cbn.
  split; [reflexivity|]. rewrite <- dedupFirst_id. split; congruence.
Qed.

(** One event keeps the list free of repeats. *)
Lemma dispatch_NoDup e σ :
  NoDup (technologiesOf σ) ->
  duplicateFree e = true ->
  NoDup (technologiesOf (dispatch e σ).1).
Proof.
  unfold technologiesOf, duplicateFree. destruct σ as [s fl]. cbn [ui inflight].
  intros Hs He.
  destruct e as [file|i r|tech|tech| |v|v|v|v]; cbn [dispatch ui inflight] in *;
    unfold lift; cbn [ui inflight]; try assumption.
  - rewrite handleResumeUpload_run.
    destruct file as [f|]; [|assumption].
    destruct (bool_decide _); assumption.
  - destruct (fl !! i); [|assumption].
    rewrite handleResumeUpload_resume_run. cbn [applied] in He.
    destruct (classify r) as [| |items]; [| |cbn; by apply bool_decide_eq_true in He];
      try destruct (hasJsonValue r); assumption.
  - rewrite addTechnology_run. cbn. unfold includes. case_bool_decide as Hin; [assumption|].
    apply NoDup_app. split; [assumption|]. split; [|apply NoDup_singleton].
    intros x Hx Hx'. apply list_elem_of_singleton in Hx'. congruence.
  - rewrite removeTechnology_run. cbn. by apply NoDup_filter.
  - rewrite clearResume_run. cbn. constructor.
Qed.

(** C4, as the handlers keep it. The technology list has no repeats in
    every state reached from a list without repeats (the empty list of a
    new form among them) by any sequence of events, as long as every list
    a successful extraction stores is itself free of repeats. *)
Theorem technologies_NoDup evs σ :
  NoDup (technologiesOf σ) ->
  forallb duplicateFree evs = true ->
  NoDup (technologiesOf (run evs σ)).
Proof.
  revert σ. induction evs as [|e evs IH]; intros σ Hσ Hevs; [assumption|].
  cbn in Hevs. apply andb_true_iff in Hevs as [He Hevs].
  unfold run. cbn [foldl]. apply IH; [|assumption].
  by apply dispatch_NoDup.
Qed.

(** The title input stores [null] for an emptied field, never the empty
    string. *)
Lemma ChangeTitle_not_empty v σ :
  title (values (ui (dispatch (ChangeTitle v) σ).1)) ≠ Some [].
Proof. destruct σ as [[d ti f p u] fl], v; discriminate. Qed.

(** *** Claims on the resume workflow *)

(** C6. Selecting a file whose media type is not "application/pdf" sends
    no request and shows an error; the state is left exactly as it was: in
    the manual state it stays manual, [hasResume] stays false and every
    field keeps its value. *)
Theorem non_pdf_rejected file σ :
  file_type file ≠ js "application/pdf" ->
  dispatch (SelectFile (Some file)) σ = (σ, [toast_error "Please upload a PDF file"])
  ∧ callsNetwork (dispatch (SelectFile (Some file)) σ).2 = false
  ∧ surfacesError (dispatch (SelectFile (Some file)) σ).2 = true.
Proof.
  intros Htype. destruct σ as [s fl]. cbn [dispatch ui inflight].
  rewrite handleResumeUpload_run, (bool_decide_eq_false_2 _ Htype), app_nil_r.
  repeat split.
Qed.

(** C2, as the handler has it. When the request is rejected, answered with
    a status outside 200-299, or answered with a body that is not JSON or
    is [null], an error is shown, the attached file is dropped and the form
    leaves resume mode, with the technology list and the other entered
    fields as they were. When the body is JSON but carries no list under
    [skills], this is not treated as a failure: a warning is shown and the
    form stays as it is, in resume mode with its file. *)
Theorem failed_extraction_outcome r s :
  let s' := stateAfter (handleResumeUpload_resume r) s in
  let out := effectsOf (handleResumeUpload_resume r) s in
  (classify r = NetworkFailure ∨ (classify r = MalformedResponse ∧ hasJsonValue r = false) ->
     surfacesError out = true
     ∧ resumeFile s' = None ∧ useResumeMode s' = false ∧ isParsingResume s' = false
     ∧ techInput s' = techInput s
     ∧ name (values s') = name (values s)
     ∧ title (values s') = title (values s)
     ∧ experienceLevel (values s') = experienceLevel (values s)
     ∧ technologies (values s') = technologies (values s)
     ∧ description (values s') = description (values s))
  ∧ (classify r = MalformedResponse ∧ hasJsonValue r = true ->
     out = [toast_warning "No technologies found in resume"]
     ∧ surfacesError out = false
     ∧ values s' = values s
     ∧ resumeFile s' = resumeFile s ∧ useResumeMode s' = useResumeMode s
     ∧ isParsingResume s' = false
     ∧ techInput s' = techInput s).
Proof.
  cbv zeta. unfold stateAfter, effectsOf. rewrite handleResumeUpload_resume_run.
  split.
  - intros [Hr|[Hr Hj]]; rewrite Hr; [|rewrite Hj]; repeat split.
  - intros [Hr Hj]. rewrite Hr, Hj. repeat split.
Qed.

(** One event of the rendered form keeps the requests single. *)
Lemma dispatch_singleFlight e σ :
  singleFlight σ -> enabled σ e = true -> singleFlight (dispatch e σ).1.
Proof.
  unfold singleFlight. destruct σ as [s fl]. cbn [ui inflight].
  intros [Hlen Hflag] He.
  destruct e as [file|i r|tech|tech| |v|v|v|v]; cbn [dispatch enabled ui inflight] in *;
    unfold lift; cbn [ui inflight].
  - apply negb_true_iff in He. rewrite He in Hflag. symmetry in Hflag.
    apply bool_decide_eq_false in Hflag.
    assert (fl = []) as -> by (destruct fl; [reflexivity | exfalso; apply Hflag; discriminate]).
    rewrite handleResumeUpload_run.
    destruct file as [f|]; [|cbn; split; [lia | assumption || (rewrite He; reflexivity)]].
    destruct (bool_decide _); cbn; split; try lia; try reflexivity.
    rewrite He. reflexivity.
  - apply bool_decide_eq_true in He. destruct He as [f Hf]. rewrite Hf.
    destruct fl as [|f' [|f'' fl]]; [discriminate | | cbn in Hlen; lia].
    destruct i as [|i]; [|discriminate].
    rewrite handleResumeUpload_resume_run.
    destruct (classify r); try destruct (hasJsonValue r); cbn; split; try lia; reflexivity.
  - rewrite addTechnology_run. cbn. split; assumption.
  - rewrite removeTechnology_run. cbn. split; assumption.
  - rewrite clearResume_run. cbn. split; assumption.
  - destruct s; cbn in *. split; assumption.
  - destruct s; cbn in *. split; assumption.
  - destruct s; cbn in *. split; assumption.
  - destruct s; cbn in *. split; assumption.
Qed.

Lemma runUI_singleFlight evs σ σ' :
  singleFlight σ -> runUI evs σ = Some σ' -> singleFlight σ'.
Proof.
  revert σ. induction evs as [|e evs IH]; intros σ Hσ Hrun; cbn in Hrun.
  - congruence.
  - destruct (enabled σ e) eqn:He; [|discriminate].
    eapply IH; [|eassumption]. by apply dispatch_singleFlight.
Qed.

(** Through the rendered form at most one request is awaited at any time,
    the parsing flag is set exactly while one is, and the file input is
    disabled meanwhile; and whatever request settles with a list, that list
    is stored. *)
Theorem single_flight evs v σ :
  runUI evs (mount v) = Some σ ->
  (length (inflight σ) ≤ 1)%nat
  ∧ (isParsingResume (ui σ) = true ↔ inflight σ ≠ [])
  ∧ (inflight σ ≠ [] -> ∀ file, enabled σ (SelectFile file) = false)
  ∧ (∀ i r items, is_Some (inflight σ !! i) -> classify r = Success items ->
       technologiesOf (dispatch (Settle i r) σ).1 = items).
Proof.
  intros Hrun.
  assert (Hinv : singleFlight σ).
  { eapply runUI_singleFlight; [|eassumption]. split; [cbn; lia | reflexivity]. }
  destruct Hinv as [Hlen Hflag]. split; [assumption|].
  split; [rewrite Hflag; apply bool_decide_eq_true|].
  split.
  - intros Hne file. cbn. rewrite Hflag, (bool_decide_eq_true_2 _ Hne). reflexivity.
  - intros i r items [f Hf] Hr. unfold technologiesOf. cbn [dispatch]. rewrite Hf.
    rewrite handleResumeUpload_resume_run, Hr. reflexivity.
Qed.

End Form.

(** *** The form on sample runs *)
Section FormExamples.
Import Schemas JobInfoForm Samples.

(** A text file selected in the form as first rendered. *)
Lemma non_pdf_rejected_witness :
  file_type text ≠ js "application/pdf"
  ∧ dispatch (SelectFile (Some text)) (mount defaultValues)
    = (mount defaultValues, [toast_error "Please upload a PDF file"]).
Proof.
  assert (H : file_type text ≠ js "application/pdf") by discriminate.
  split; [exact H|].
  exact (proj1 (non_pdf_rejected text (mount defaultValues) H)).
Defined.

Lemma extraction_stores_list_verbatim_witness :
  classify (found [js "Python"; js "SQL"]) = Success [js "Python"; js "SQL"]
  ∧ technologies (values (stateAfter (handleResumeUpload_resume (found [js "Python"; js "SQL"]))
                            (ui (run [SelectFile (Some pdf)] (mount defaultValues)))))
    = [js "Python"; js "SQL"].
Proof.
  split; [reflexivity|].
  exact (proj1 (extraction_stores_list_verbatim (found [js "Python"; js "SQL"])
                  [js "Python"; js "SQL"]
                  (ui (run [SelectFile (Some pdf)] (mount defaultValues))) eq_refl)).
Defined.

(** C3, as stated, fails on ["Go","Go","Rust"]: the list is stored with
    its repeat, not as ["Go","Rust"]. *)
Lemma extraction_keeps_repeats :
  dedupFirst [js "Go"; js "Go"; js "Rust"] = [js "Go"; js "Rust"]
  ∧ technologiesOf (run [SelectFile (Some pdf);
                         Settle 0 (found [js "Go"; js "Go"; js "Rust"])]
                        (mount defaultValues))
    = [js "Go"; js "Go"; js "Rust"]
  ∧ technologiesOf (run [SelectFile (Some pdf);
                         Settle 0 (found [js "Go"; js "Go"; js "Rust"])]
                        (mount defaultValues))
    ≠ [js "Go"; js "Rust"].
Proof. split; [reflexivity|]. split; [reflexivity|discriminate]. Qed.

Lemma technologies_NoDup_witness :
  NoDup (technologiesOf (mount defaultValues))
  ∧ forallb duplicateFree
      [AddTechnology (js "React"); AddTechnology (js "React");
       RemoveTechnology (js "Docker"); SelectFile (Some pdf);
       Settle 0 (found [js "Python"; js "SQL"]); ClearResume;
       AddTechnology (js "AWS")] = true
  ∧ NoDup (technologiesOf
             (run [AddTechnology (js "React"); AddTechnology (js "React");
                   RemoveTechnology (js "Docker"); SelectFile (Some pdf);
                   Settle 0 (found [js "Python"; js "SQL"]); ClearResume;
                   AddTechnology (js "AWS")]
                  (mount defaultValues))).
Proof.
  assert (H0 : NoDup (technologiesOf (mount defaultValues))) by apply NoDup_nil_2.
  split; [exact H0|]. split; [vm_compute; reflexivity|].
  apply (technologies_NoDup _ (mount defaultValues) H0). vm_compute. reflexivity.
Defined.

(** C4, as stated, fails: selecting a PDF and receiving ["Go","Go"], two
    events the rendered form lets through, leave a list with a repeat. *)
Lemma repeats_reachable :
  runUI [SelectFile (Some pdf); Settle 0 (found [js "Go"; js "Go"])] (mount defaultValues)
  = Some (run [SelectFile (Some pdf); Settle 0 (found [js "Go"; js "Go"])]
              (mount defaultValues))
  ∧ ¬ NoDup (technologiesOf
               (run [SelectFile (Some pdf); Settle 0 (found [js "Go"; js "Go"])]
                    (mount defaultValues))).
Proof.
  split; [reflexivity|]. intros H.
  change (NoDup [js "Go"; js "Go"]) in H.
  apply NoDup_cons in H as [H _]. apply H, list_elem_of_here.
Qed.

Lemma single_flight_witness :
  runUI [SelectFile (Some pdf)] (mount defaultValues)
  = Some (dispatch (SelectFile (Some pdf)) (mount defaultValues)).1
  ∧ enabled (dispatch (SelectFile (Some pdf)) (mount defaultValues)).1
            (SelectFile (Some pdf2)) = false.
Proof.
  split; [reflexivity|].
  apply (single_flight [SelectFile (Some pdf)] defaultValues _ eq_refl).
  discriminate.
Defined.

(** Outside the rendered form, on the handlers alone: were a second request
    sent before the first settles, and the first to settle last, the list
    would be the first request's. *)
Lemma late_result_overwrites :
  technologiesOf (run [SelectFile (Some pdf); SelectFile (Some pdf2);
                       Settle 1 (found [js "Go"]); Settle 0 (found [js "Python"])]
                      (mount defaultValues))
  = [js "Python"]
  ∧ technologiesOf (run [SelectFile (Some pdf); SelectFile (Some pdf2);
                         Settle 1 (found [js "Go"]); Settle 0 (found [js "Python"])]
                        (mount defaultValues))
    ≠ [js "Go"].
Proof. split; [reflexivity|discriminate]. Qed.

(** The rendered form does not offer that run: the file input is disabled
    while the first request is awaited. *)
Lemma supersession_not_offered :
  runUI [SelectFile (Some pdf); SelectFile (Some pdf2)] (mount defaultValues) = None.
Proof. reflexivity. Qed.

(** C2, as stated, fails on a response without [skills]: no error is
    shown, the file stays attached, the form stays in resume mode and
    [hasResume] stays true. *)
Lemma malformed_response_keeps_resume :
  classify noSkills = MalformedResponse
  ∧ surfacesError (dispatch (Settle 0 noSkills)
                     (run [SelectFile (Some pdf)] (mount defaultValues))).2 = false
  ∧ resumeFile (ui (run [SelectFile (Some pdf); Settle 0 noSkills] (mount defaultValues)))
    = Some pdf
  ∧ useResumeMode (ui (run [SelectFile (Some pdf); Settle 0 noSkills] (mount defaultValues)))
    = true
  ∧ hasResume (values (ui (run [SelectFile (Some pdf); Settle 0 noSkills]
                             (mount defaultValues))))
    = Some true.
Proof. repeat split. Qed.

(** After a failed request the form is back in manual mode, the file
    dropped, while the [hasResume] set when the file was selected is still
    true: the [catch] does not write it. *)
Lemma failed_request_keeps_hasResume :
  classify serverError = NetworkFailure
  ∧ useResumeMode (ui (run [SelectFile (Some pdf); Settle 0 serverError]
                         (mount defaultValues))) = false
  ∧ resumeFile (ui (run [SelectFile (Some pdf); Settle 0 serverError]
                      (mount defaultValues))) = None
  ∧ hasResume (values (ui (run [SelectFile (Some pdf); Settle 0 serverError]
                             (mount defaultValues)))) = Some true.
Proof. repeat split. Qed.

End FormExamples.


(** ** More on the validation schema *)
Section ValidationMore.
Import Zod Schemas.

Variable experienceLevels : list jstring.

Ltac all_cases d :=
  destruct (name d) as [|? ?], (title d) as [[|? ?]|],
    (bool_decide (experienceLevel d ∈ experienceLevels)) eqn:?,
    (hasResume d) as [[]|], (bool_decide (trim (description d) = [])) eqn:?.

(** A form value whose technologies are strings passes the schema exactly
    when its name is not the empty string, its title is [null] or not the
    empty string, its experience level is one of the levels, and it either
    has a resume or a description that is not empty after trimming. *)
Theorem validate_accepts_iff d :
  validate experienceLevels d = []
  ↔ name d ≠ []
    ∧ title d ≠ Some []
    ∧ experienceLevel d ∈ experienceLevels
    ∧ (hasResume d = Some true ∨ trim (description d) ≠ []).
Proof.
  rewrite validate_issues, descriptionRefinement_spec.
  all_cases d; cbn;
    repeat match goal with
           | H : bool_decide _ = true |- _ => apply bool_decide_eq_true in H
           | H : bool_decide _ = false |- _ => apply bool_decide_eq_false in H
           end;
    (split; [try discriminate; intros _ | try (intros _; reflexivity)]);
    try (repeat split; auto; discriminate);
    try (intros (? & ? & ? & ?); try congruence;
         repeat match goal with
                | H : _ ∨ _ |- _ => destruct H
                end; congruence).
Qed.

(** On a form value whose technologies are strings, the issues lie on
    [name], [title], [experienceLevel] and [description] only, at most one
    on each and at most three in all. *)
Theorem validate_issue_paths d :
  NoDup (path <$> validate experienceLevels d)
  ∧ Forall (fun i => path i ∈ [[key "name"]; [key "title"];
                                [key "experienceLevel"]; [key "description"]])
           (validate experienceLevels d)
  ∧ (length (validate experienceLevels d) ≤ 3)%nat
  ∧ errorsOn "technologies" (validate experienceLevels d) = []
  ∧ errorsOn "hasResume" (validate experienceLevels d) = [].
Proof.
  rewrite validate_issues, descriptionRefinement_spec. unfold errorsOn.
  all_cases d; cbn; (split; [compute_done|]); (split; [compute_done|]);
    (split; [lia|]); split; reflexivity.
Qed.

(** X3. When the experience level is not one of the levels, the object is
    aborted and the refinement is not run: the level is reported, nothing is
    reported on the description, and the issues do not depend on the
    description nor on [hasResume]. *)
Theorem unknown_level_skips_refinement d :
  experienceLevel d ∉ experienceLevels ->
  errorsOn "experienceLevel" (validate experienceLevels d) = [None]
  ∧ errorsOn "description" (validate experienceLevels d) = []
  ∧ (∀ desc h,
       validate experienceLevels
         (mkFormData (name d) (title d) (experienceLevel d) (technologies d) desc h)
       = validate experienceLevels d).
Proof.
  intros H.
  rewrite errorsOn_description, errorsOn_experienceLevel.
  rewrite (bool_decide_eq_false_2 _ H).
  split; [reflexivity|]. split; [reflexivity|].
  intros desc h. rewrite !validate_issues. cbn [name title experienceLevel].
  rewrite (bool_decide_eq_false_2 _ H). reflexivity.
Qed.

(** The issues of a form value under the earlier schema, key by key. *)
Lemma legacy_validate_issues d :
  LegacySchemas.validate experienceLevels d =
    (match name d with
     | [] => [mkIssue too_small [key "name"] (Some "Required")]
     | _ => []
     end)
    ++ (match title d with
        | Some [] => [mkIssue too_small [key "title"] None]
        | _ => []
        end)
    ++ (if bool_decide (experienceLevel d ∈ experienceLevels)
        then []
        else [mkIssue invalid_enum_value [key "experienceLevel"] None])
    ++ (match description d with
        | [] => [mkIssue too_small [key "description"] (Some "Required")]
        | _ => []
        end).
Proof.
  unfold LegacySchemas.validate, safeParse, LegacySchemas.jobInfoSchema, object, field.
  cbn [fmap list_fmap foldl].
  rewrite array_of_strings_OK.
  unfold enum, nullable, parseString, min, string_, runCheck.
  cbn [app foldl].
  destruct (name d) as [|? ?], (title d) as [[|? ?]|],
    (bool_decide (experienceLevel d ∈ experienceLevels)),
    (description d) as [|? ?]; reflexivity.
Qed.

(** X4. The earlier schema and the present one report the same on [name],
    [title] and [experienceLevel]. The earlier one reports "Required" on
    [description] exactly when the description is the empty string, whatever
    the other fields hold; and a form value without a resume that passes the
    present schema passes the earlier one. *)
Theorem legacy_schema_comparison d :
  errorsOn "name" (LegacySchemas.validate experienceLevels d)
    = errorsOn "name" (validate experienceLevels d)
  ∧ errorsOn "title" (LegacySchemas.validate experienceLevels d)
    = errorsOn "title" (validate experienceLevels d)
  ∧ errorsOn "experienceLevel" (LegacySchemas.validate experienceLevels d)
    = errorsOn "experienceLevel" (validate experienceLevels d)
  ∧ errorsOn "description" (LegacySchemas.validate experienceLevels d)
    = (match description d with [] => [Some "Required"] | _ => [] end)
  ∧ (hasResume d ≠ Some true ->
     validate experienceLevels d = [] ->
     LegacySchemas.validate experienceLevels d = []).
Proof.
  rewrite legacy_validate_issues, validate_issues, descriptionRefinement_spec.
  unfold errorsOn.
  destruct (description d) as [|c ds] eqn:Hd.
  - rewrite trim_empty.
    all_cases d; repeat split; intros; try reflexivity; try discriminate; congruence.
  - destruct (name d) as [|? ?], (title d) as [[|? ?]|],
      (bool_decide (experienceLevel d ∈ experienceLevels)),
      (hasResume d) as [[]|], (bool_decide (trim (c :: ds) = []));
      repeat split; intros; try reflexivity; try discriminate; congruence.
Qed.

End ValidationMore.

Section ValidationMoreExamples.
Import Zod Schemas Samples.

(** A form value whose experience level is not one of the levels: the
    level is reported, and the empty description is not. *)
Lemma unknown_level_skips_refinement_witness :
  (js "staff" ∉ levels)
  ∧ errorsOn "experienceLevel"
      (validate levels (mkFormData [] None (js "staff") [] [] (Some false))) = [None]
  ∧ errorsOn "description"
      (validate levels (mkFormData [] None (js "staff") [] [] (Some false))) = [].
Proof.
  assert (H : js "staff" ∉ levels) by compute_done.
  split; [exact H|].
  destruct (unknown_level_skips_refinement levels
              (mkFormData [] None (js "staff") [] [] (Some false)) H) as (H1 & H2 & _).
  split; [exact H1|exact H2].
Defined.

End ValidationMoreExamples.

(** ** More on the technology list *)
Section ListMore.
Import Schemas JobInfoForm FormViews.

(** X5. [removeTechnology] takes every occurrence of the name out of the
    list and keeps the other names in their order; it never fails; removing
    a name that is not in the list changes nothing, and so does removing a
    name a second time. *)
Theorem removeTechnology_removes tech s :
  let l := technologies (values s) in
  let s1 := stateAfter (removeTechnology tech) s in
  (removeTechnology tech s).1.1 = normal ()
  ∧ technologies (values s1) = filter (fun t => t ≠ tech) l
  ∧ (tech ∉ technologies (values s1))
  ∧ (∀ t, t ≠ tech -> (t ∈ technologies (values s1) ↔ t ∈ l))
  ∧ (length (technologies (values s1)) ≤ length l)%nat
  ∧ (tech ∉ l -> s1 = s)
  ∧ stateAfter (removeTechnology tech) s1 = s1.
Proof.
  cbv zeta. unfold stateAfter. rewrite !removeTechnology_run. cbn.
  assert (Hid : ∀ l : list jstring, tech ∉ l -> filter (fun t => t ≠ tech) l = l).
  { induction l as [|x l IH]; [reflexivity|]. rewrite not_elem_of_cons.
    intros [Hx Hl]. rewrite filter_cons_True by congruence. f_equal. auto. }
  assert (Hout : tech ∉ filter (fun t => t ≠ tech) (technologies (values s))).
  { rewrite list_elem_of_filter. tauto. }
  split; [reflexivity|]. split; [reflexivity|]. split; [exact Hout|].
  split; [intros t Ht; rewrite list_elem_of_filter; tauto|].
  split; [apply length_filter|].
  split.
  - intros Hl. rewrite (Hid _ Hl). destruct s as [[] ? ? ? ?]. reflexivity.
  - rewrite (Hid _ Hout). reflexivity.
Qed.

(** X6. Adding a name that is not in the list and removing it again gives
    the list back; removing a name and adding it again leaves it last, after
    the other names in their order. *)
Theorem add_remove_round_trip tech s :
  let l := technologies (values s) in
  (tech ∉ l ->
   technologies (values (stateAfter (removeTechnology tech)
                           (stateAfter (addTechnology tech) s))) = l)
  ∧ technologies (values (stateAfter (addTechnology tech)
                            (stateAfter (removeTechnology tech) s)))
    = filter (fun t => t ≠ tech) l ++ [tech].
Proof.
  cbv zeta. unfold stateAfter.
  rewrite (addTechnology_run tech s), (removeTechnology_run tech s).
  rewrite removeTechnology_run, addTechnology_run. cbn.
  unfold includes. split.
  - intros Hl. rewrite (bool_decide_eq_false_2 _ Hl), filter_app.
    rewrite filter_cons_False, filter_nil, app_nil_r by (intros H; apply H; reflexivity).
    clear -Hl. induction (technologies (values s)) as [|x l IH]; [reflexivity|].
    rewrite not_elem_of_cons in Hl. destruct Hl as [Hx Hl].
    rewrite filter_cons_True by congruence. f_equal. auto.
  - rewrite bool_decide_eq_false_2; [reflexivity|].
    rewrite list_elem_of_filter. tauto.
Qed.

Lemma AVAILABLE_TECHNOLOGIES_NoDup : NoDup AVAILABLE_TECHNOLOGIES.
Proof. compute_done. Qed.

(** X7. The select offers exactly the available technologies that are not
    in the list, each once. Choosing an offered one (outside resume mode)
    appends it to the list, takes it off the offer and leaves the rest of
    the offer as it was. *)
Theorem offered_add tech σ :
  enabled σ (AddTechnology tech) = true ->
  tech ∈ options (ui σ)
  ∧ technologiesOf (dispatch (AddTechnology tech) σ).1 = technologiesOf σ ++ [tech]
  ∧ options (ui (dispatch (AddTechnology tech) σ).1)
    = filter (fun t => t ≠ tech) (options (ui σ))
  ∧ NoDup (options (ui σ))
  ∧ (∀ t, t ∈ options (ui σ) ↔ t ∈ AVAILABLE_TECHNOLOGIES ∧ t ∉ technologiesOf σ)
  ∧ enabled (dispatch (AddTechnology tech) σ).1 (AddTechnology tech) = false.
Proof.
  pose proof AVAILABLE_TECHNOLOGIES_NoDup as HA.
  destruct σ as [s fl]. unfold technologiesOf, options. cbn [enabled dispatch ui].
  unfold lift. cbn [ui]. rewrite addTechnology_run.
  revert HA. generalize AVAILABLE_TECHNOLOGIES as A. intros A HA.
  cbn [fst snd values technologies useResumeMode ui]. unfold includes.
  intros He. apply andb_true_iff in He as [He Hnew].
  apply andb_true_iff in He as [Hmode Hav].
  apply bool_decide_eq_true in Hav.
  apply negb_true_iff in Hnew. rewrite Hnew. apply bool_decide_eq_false in Hnew.
  split; [rewrite list_elem_of_filter; split; [|exact Hav]|].
  { rewrite bool_decide_eq_false_2 by assumption. reflexivity. }
  split; [reflexivity|].
  split.
  { rewrite list_filter_filter. apply list_filter_iff. intros t.
    rewrite !negb_true_iff, !bool_decide_eq_false, elem_of_app, list_elem_of_singleton.
    tauto. }
  split; [apply NoDup_filter, HA|].
  split.
  { intros t. rewrite list_elem_of_filter, negb_true_iff, bool_decide_eq_false. tauto. }
  rewrite Hmode, (bool_decide_eq_true_2 _ Hav).
  rewrite bool_decide_eq_true_2; [reflexivity|].
  apply elem_of_app. right. apply list_elem_of_here.
Qed.

End ListMore.

(** ** More on the resume workflow *)
Section WorkflowMore.
Import Zod Schemas JobInfoForm FormViews.

(** X8. Selecting a file sends a request exactly when a file is given and
    its media type is "application/pdf": then one request, with that file
    under [file], to "/api/parse-resume", while the form enters resume mode
    with [hasResume] true and the parsing flag set. With no file nothing
    happens at all, and no notification is shown. *)
Theorem request_sent_iff_pdf file σ :
  let σ' := (dispatch (SelectFile file) σ).1 in
  let out := (dispatch (SelectFile file) σ).2 in
  (callsNetwork out = true ↔ ∃ f, file = Some f ∧ file_type f = js "application/pdf")
  ∧ (∀ f, file = Some f -> file_type f = js "application/pdf" ->
       out = [fetch_post "/api/parse-resume" "file" f]
       ∧ inflight σ' = inflight σ ++ [f]
       ∧ resumeFile (ui σ') = Some f
       ∧ isParsingResume (ui σ') = true
       ∧ useResumeMode (ui σ') = true
       ∧ hasResume (values (ui σ')) = Some true
       ∧ technologiesOf σ' = technologiesOf σ
       ∧ entered (ui σ') = entered (ui σ))
  ∧ (file = None -> σ' = σ ∧ out = []).
Proof.
  cbv zeta. destruct σ as [s fl]. cbn [dispatch ui inflight].
  rewrite handleResumeUpload_run.
  destruct file as [f|].
  - destruct (decide (file_type f = js "application/pdf")) as [E|E].
    + rewrite (bool_decide_eq_true_2 _ E). cbn. split; [|split].
      * split; [eauto|reflexivity].
      * intros f' [= <-] _. repeat split.
      * discriminate.
    + rewrite (bool_decide_eq_false_2 _ E). cbn. split; [|split].
      * split; [discriminate|]. intros (f' & [= <-] & E'). contradiction.
      * intros f' [= <-] E'. contradiction.
      * discriminate.
  - cbn. rewrite app_nil_r. split; [|split].
    + split; [discriminate|]. intros (f' & [=] & _).
    + discriminate.
    + auto.
Qed.

(** X9. However the request settles, the rest of the handler ends
    normally (no exception escapes it), clears the parsing flag, shows
    exactly one notification and sends nothing. *)
Theorem settle_ends_parsing r s :
  (handleResumeUpload_resume r s).1.1 = normal ()
  ∧ isParsingResume (stateAfter (handleResumeUpload_resume r) s) = false
  ∧ length (effectsOf (handleResumeUpload_resume r) s) = 1%nat
  ∧ callsNetwork (effectsOf (handleResumeUpload_resume r) s) = false
  ∧ entered (stateAfter (handleResumeUpload_resume r) s) = entered s
  ∧ techInput (stateAfter (handleResumeUpload_resume r) s) = techInput s.
Proof.
  unfold stateAfter, effectsOf. rewrite handleResumeUpload_resume_run.
  destruct (classify r); try destruct (hasJsonValue r); repeat split.
Qed.

(** The list handlers, the upload, its outcome and the clearing of the
    resume leave the name, the title, the experience level and the
    description as they were. *)
Theorem entered_fields_kept e σ :
  isFieldEdit e = false ->
  entered (ui (dispatch e σ).1) = entered (ui σ).
Proof.
  destruct σ as [s fl].
  destruct e as [file|i r|tech|tech| |v|v|v|v]; cbn [isFieldEdit]; try discriminate;
    intros _; cbn [dispatch ui inflight]; unfold lift; cbn [ui inflight].
  - rewrite handleResumeUpload_run. destruct file as [f|]; [|reflexivity].
    destruct (bool_decide _); reflexivity.
  - destruct (fl !! i); [|reflexivity].
    rewrite handleResumeUpload_resume_run.
    destruct (classify r); try destruct (hasJsonValue r); reflexivity.
  - rewrite addTechnology_run. reflexivity.
  - rewrite removeTechnology_run. reflexivity.
  - rewrite clearResume_run. reflexivity.
Qed.

(** One event of the rendered form keeps the workflow's flags in
    agreement. *)
Lemma dispatch_coherent e σ :
  coherent σ -> enabled σ e = true -> coherent (dispatch e σ).1.
Proof.
  unfold coherent. destruct σ as [s fl]. cbn [ui inflight].
  intros (Hfile & Hres & Hpar) He.
  destruct e as [file|i r|tech|tech| |v|v|v|v]; cbn [dispatch enabled ui inflight] in *;
    unfold lift; cbn [ui inflight].
  - rewrite handleResumeUpload_run. destruct file as [f|]; [|auto].
    destruct (bool_decide _); [|auto]. cbn. repeat split; eauto.
  - destruct (fl !! i); [|auto].
    rewrite handleResumeUpload_resume_run.
    destruct (classify r); try destruct (hasJsonValue r); cbn;
      repeat split; try discriminate; auto; try apply Hfile;
      try (intros [? [=]]).
  - rewrite addTechnology_run. cbn. auto.
  - rewrite removeTechnology_run. cbn. auto.
  - rewrite clearResume_run. cbn. apply andb_true_iff in He as [_ He].
    apply negb_true_iff in He. rewrite He.
    repeat split; try discriminate. intros [? [=]].
  - destruct s; cbn in *. auto.
  - destruct s; cbn in *. auto.
  - destruct s; cbn in *. auto.
  - destruct s; cbn in *. auto.
Qed.

Lemma runUI_coherent evs σ σ' :
  coherent σ -> runUI evs σ = Some σ' -> coherent σ'.
Proof.
  revert σ. induction evs as [|e evs IH]; intros σ Hσ Hrun; cbn in Hrun.
  - congruence.
  - destruct (enabled σ e) eqn:He; [|discriminate].
    eapply IH; [|eassumption]. by apply dispatch_coherent.
Qed.

(** X11. In every state the rendered form reaches, the form is in resume
    mode exactly when a file is attached, parsing only happens in resume
    mode, and in resume mode [hasResume] is true: whenever the description
    is labelled "(Optional)" the schema reports nothing on it. *)
Theorem optional_label_is_honoured evs v σ experienceLevels :
  runUI evs (mount v) = Some σ ->
  (useResumeMode (ui σ) = true ↔ is_Some (resumeFile (ui σ)))
  ∧ (isParsingResume (ui σ) = true -> useResumeMode (ui σ) = true)
  ∧ (descriptionLabelledOptional (ui σ) = true ->
     hasResume (values (ui σ)) = Some true
     ∧ errorsOn "description" (validate experienceLevels (values (ui σ))) = []).
Proof.
  intros Hrun.
  assert (Hc : coherent σ).
  { eapply runUI_coherent; [|eassumption]. unfold coherent. cbn.
    repeat split; try discriminate. intros [? [=]]. }
  destruct Hc as (Hfile & Hres & Hpar).
  split; [exact Hfile|]. split; [exact Hpar|].
  unfold descriptionLabelledOptional. intros Hmode.
  split; [auto|]. apply description_free_with_resume. auto.
Qed.

(** X12. From a form with no request pending, selecting a PDF, receiving
    its list and then clearing the resume leaves the form in manual mode: no
    file attached, no request pending, the parsing flag and resume mode off,
    the technology list empty, whatever it held before, and [hasResume]
    false, with the name, the title, the experience level, the description
    and the technology input as they were before the selection. *)
Theorem upload_then_clear f r items σ :
  file_type f = js "application/pdf" ->
  inflight σ = [] ->
  classify r = Success items ->
  run [SelectFile (Some f); Settle 0 r; ClearResume] σ
  = mkSystem
      (mkState (mkFormData (name (values (ui σ))) (title (values (ui σ)))
                  (experienceLevel (values (ui σ))) [] (description (values (ui σ)))
                  (Some false))
               (techInput (ui σ)) None false false)
      [].
Proof.
  intros Hf Hfl Hr. destruct σ as [s fl]. cbn in Hfl. subst fl.
  unfold run. cbn [foldl dispatch ui inflight].
  rewrite handleResumeUpload_run, (bool_decide_eq_true_2 _ Hf).
  cbn [fst snd app lookup list_lookup ui inflight].
  rewrite handleResumeUpload_resume_run, Hr.
  cbn [fst snd ui inflight]. unfold lift. cbn [ui inflight].
  rewrite clearResume_run. reflexivity.
Qed.

(** X13. From a form with no request pending, selecting a PDF whose request
    then fails (rejected, or answered with a status outside 200-299) leaves
    the form as it was before the selection except for [hasResume], which
    stays true and the parsing flag, which is off: the file is dropped, the
    form is out of resume mode, and the schema reports nothing on the
    description from then on. *)
Theorem failed_upload_leaves_hasResume f r σ experienceLevels :
  file_type f = js "application/pdf" ->
  inflight σ = [] ->
  classify r = NetworkFailure ->
  run [SelectFile (Some f); Settle 0 r] σ
  = mkSystem
      (mkState (withHasResume (Some true) (values (ui σ))) (techInput (ui σ))
               None false false)
      []
  ∧ errorsOn "description"
      (validate experienceLevels
         (values (ui (run [SelectFile (Some f); Settle 0 r] σ)))) = [].
Proof.
  intros Hf Hfl Hr. destruct σ as [s fl]. cbn in Hfl. subst fl.
  assert (E : run [SelectFile (Some f); Settle 0 r] (mkSystem s [])
              = mkSystem (mkState (withHasResume (Some true) (values s)) (techInput s)
                                  None false false) []).
  { unfold run. cbn [foldl dispatch ui inflight].
    rewrite handleResumeUpload_run, (bool_decide_eq_true_2 _ Hf).
    cbn [fst snd app lookup list_lookup ui inflight].
    rewrite handleResumeUpload_resume_run, Hr. reflexivity. }
  rewrite E. split; [reflexivity|].
  apply description_free_with_resume. reflexivity.
Qed.

(** X14. In every state the rendered form reaches with a request pending,
    that request can settle, in any way; once it has, no request is pending,
    the parsing flag is off and the file input is enabled again, so that
    another file can be selected. *)
Theorem retry_after_settle evs v σ r :
  runUI evs (mount v) = Some σ ->
  inflight σ ≠ [] ->
  enabled σ (Settle 0 r) = true
  ∧ inflight (dispatch (Settle 0 r) σ).1 = []
  ∧ isParsingResume (ui (dispatch (Settle 0 r) σ).1) = false
  ∧ (∀ file, enabled (dispatch (Settle 0 r) σ).1 (SelectFile file) = true).
Proof.
  intros Hrun Hne.
  assert (Hinv : singleFlight σ).
  { eapply runUI_singleFlight; [|eassumption]. split; [cbn; lia | reflexivity]. }
  destruct Hinv as [Hlen _]. destruct σ as [s fl]. cbn [inflight ui] in *.
  destruct fl as [|f [|f' fl]]; [contradiction| |cbn in Hlen; lia].
  cbn [enabled dispatch inflight ui lookup list_lookup].
  rewrite handleResumeUpload_resume_run.
  destruct (classify r); try destruct (hasJsonValue r); repeat split.
Qed.

(** X15. Clearing the resume empties the technology list, drops the file,
    leaves resume mode and sets [hasResume] to false, keeping what the user
    entered; for a form value of the form's type the description is then
    required again: "Required" is reported on it exactly when it is empty
    after trimming. *)
Theorem clearResume_restores_manual s experienceLevels :
  let s' := stateAfter clearResume s in
  technologies (values s') = []
  ∧ resumeFile s' = None
  ∧ useResumeMode s' = false
  ∧ hasResume (values s') = Some false
  ∧ isParsingResume s' = isParsingResume s
  ∧ entered s' = entered s
  ∧ effectsOf clearResume s = []
  ∧ (wellTyped experienceLevels (values s) ->
     errorsOn "description" (validate experienceLevels (values s'))
     = if bool_decide (trim (description (values s)) = []) then [Some "Required"] else []).
Proof.
  cbv zeta. unfold stateAfter, effectsOf, wellTyped. rewrite clearResume_run. cbn.
  repeat split. intros Hl. rewrite errorsOn_description. cbn.
  rewrite (bool_decide_eq_true_2 _ Hl). reflexivity.
Qed.

End WorkflowMore.

(** ** The relay route *)
Section RouteFacts.
Import JobInfoForm Route.

Variable statusError : nat -> jstring.

(** The route's answer, case by case. *)
Lemma POST_cases formData external :
  POST statusError formData external =
    match formData with
    | failed e =>
        (fulfilled (mkNextResponse 500 (errorBody "Internal server error" (Some e))), [])
    | fulfilled fd =>
        match get (js "file") fd with
        | Some (entry_file f) =>
            (match external with
             | failed e =>
                 fulfilled (mkNextResponse 500 (errorBody "Internal server error" (Some e)))
             | fulfilled resp =>
                 if okStatus (ext_status resp)
                 then match ext_json resp with
                      | fulfilled data => fulfilled (mkNextResponse 200 data)
                      | failed e =>
                          fulfilled (mkNextResponse 500
                                       (errorBody "Internal server error" (Some e)))
                      end
                 else match ext_text resp with
                      | fulfilled t =>
                          match NextResponse_json statusError
                                  (errorBody "Failed to parse resume" (Some t))
                                  (ext_status resp) with
                          | fulfilled res => fulfilled res
                          | failed e =>
                              fulfilled (mkNextResponse 500
                                           (errorBody "Internal server error" (Some e)))
                          end
                      | failed e =>
                          fulfilled (mkNextResponse 500
                                       (errorBody "Internal server error" (Some e)))
                      end
             end,
             [fetch_post "http://localhost:5000/parse-resume" "resume" f])
        | _ => (fulfilled (mkNextResponse 400 (errorBody "No file provided" None)), [])
        end
    end.
Proof.
  unfold POST, tryBlock.
  destruct formData as [fd|e]; [|reflexivity].
  destruct (get (js "file") fd) as [[f|t]|]; [|reflexivity|reflexivity].
  destruct external as [resp|e]; [|reflexivity].
  destruct (okStatus (ext_status resp)); cbn [negb].
  - destruct (ext_json resp); reflexivity.
  - destruct (ext_text resp) as [t|e]; [|reflexivity].
    destruct (NextResponse_json _ _ _); reflexivity.
Qed.

(** A response that could be built has the status asked for. *)
Lemma NextResponse_json_status body status res :
  NextResponse_json statusError body status = fulfilled res ->
  res = mkNextResponse status body ∧ (200 ≤ status ≤ 599)%nat.
Proof.
  unfold NextResponse_json.
  destruct (Nat.ltb_spec status 200), (Nat.ltb_spec 599 status),
    (nullBodyStatus status); cbn [orb]; try discriminate.
  intros [= <-]. split; [reflexivity|lia].
Qed.

(** Among the statuses outside 200-299, a response with a body can carry
    those from 300 to 599 other than 304. *)
Lemma error_status_constructible st :
  okStatus st = false ->
  (st <? 200)%nat || (599 <? st)%nat || nullBodyStatus st
  = negb ((300 <=? st)%nat && (st <=? 599)%nat && negb (st =? 304)%nat).
Proof.
  unfold okStatus, nullBodyStatus. intros Hok.
  apply andb_false_iff in Hok.
  case_bool_decide as Hn.
  - rewrite orb_true_r. rewrite !elem_of_cons, elem_of_nil in Hn.
    destruct Hn as [->|[->|[->|[->|[->|[]]]]]]; try reflexivity;
      destruct Hok; discriminate.
  - rewrite orb_false_r. rewrite !elem_of_cons, elem_of_nil in Hn.
    rewrite !Nat.leb_gt in Hok.
    apply eq_true_iff_eq.
    rewrite negb_true_iff, orb_true_iff, !andb_false_iff, negb_false_iff,
      !Nat.ltb_lt, !Nat.leb_gt, Nat.eqb_eq.
    lia.
Qed.

(** The route's answer: with a file under [file] and a JSON answer of the
    service with a status in 200-299, the parsed JSON is handed to
    [NextResponse.json] with status 200; in every other case the status of
    the answer is outside 200-299. *)
Lemma relay_answers formData external :
  ∃ res,
    (POST statusError formData external).1 = fulfilled res
    ∧ (length (POST statusError formData external).2 ≤ 1)%nat
    ∧ match relayed formData external with
      | Some (f, data) =>
          res = mkNextResponse 200 data
          ∧ (POST statusError formData external).2
            = [fetch_post "http://localhost:5000/parse-resume" "resume" f]
      | None => okStatus (res_status res) = false
      end.
Proof.
  rewrite POST_cases. unfold relayed.
  destruct formData as [fd|e].
  2:{ eexists. split; [reflexivity|]. split; [cbn [snd length]; lia|].
      destruct external; reflexivity. }
  destruct (get (js "file") fd) as [[f|t]|].
  2,3: (eexists; split; [reflexivity|]; split; [cbn [snd length]; lia|];
        destruct external; reflexivity).
  destruct external as [resp|e].
  2:{ eexists. split; [reflexivity|]. split; [cbn [snd length]; lia|]. reflexivity. }
  destruct (okStatus (ext_status resp)) eqn:Hok.
  - destruct (ext_json resp) as [data|e];
      (eexists; split; [reflexivity|]; split; [cbn [snd length]; lia|]);
      [split; reflexivity | reflexivity].
  - assert (Hnone : match ext_json resp with
                    | fulfilled _ | _ => @None (File * Json) end = None)
      by (destruct (ext_json resp); reflexivity).
    rewrite Hnone.
    destruct (ext_text resp) as [t|e].
    + destruct (NextResponse_json _ _ _) as [res|e] eqn:Hres.
      * apply NextResponse_json_status in Hres as [-> _].
        eexists. split; [reflexivity|]. split; [cbn [snd length]; lia|]. exact Hok.
      * eexists. split; [reflexivity|]. split; [cbn [snd length]; lia|]. reflexivity.
    + eexists. split; [reflexivity|]. split; [cbn [snd length]; lia|]. reflexivity.
Qed.

(** X17. Without a file under [file] (no such entry, or a string) the
    route answers 400 "No file provided" and sends nothing to the extraction
    service. *)
Theorem relay_without_file fd external :
  (∀ f, get (js "file") fd ≠ Some (entry_file f)) ->
  POST statusError (fulfilled fd) external
  = (fulfilled (mkNextResponse 400 (errorBody "No file provided" None)), []).
Proof.
  intros Hno. unfold POST, tryBlock.
  destruct (get (js "file") fd) as [[f|t]|]; [|reflexivity|reflexivity].
  exfalso. by apply (Hno f).
Qed.

(** X18. When the extraction service answers with a status outside
    200-299, the route forwards the file and answers "Failed to parse
    resume" with the service's text as details and the service's status,
    provided a response with a body can carry that status (300-599 other
    than 304); otherwise building that answer throws and the route answers
    500 "Internal server error". *)
Theorem relay_passes_error_status fd f resp t :
  get (js "file") fd = Some (entry_file f) ->
  okStatus (ext_status resp) = false ->
  ext_text resp = fulfilled t ->
  POST statusError (fulfilled fd) (fulfilled resp)
  = (fulfilled
       (if (300 <=? ext_status resp)%nat && (ext_status resp <=? 599)%nat
           && negb (ext_status resp =? 304)%nat
        then mkNextResponse (ext_status resp)
               (errorBody "Failed to parse resume" (Some t))
        else mkNextResponse 500
               (errorBody "Internal server error" (Some (statusError (ext_status resp))))),
     [fetch_post "http://localhost:5000/parse-resume" "resume" f]).
Proof.
  intros Hget Hok Ht. rewrite POST_cases, Hget, Hok, Ht.
  unfold NextResponse_json. rewrite (error_status_constructible _ Hok).
  destruct (_ && _ && _); reflexivity.
Qed.

End RouteFacts.

(** ** The PDF uploader *)
Section UploaderFacts.
Import JobInfoForm PdfUploader.

(** The stored file, if any, is a PDF. *)
Lemma step_keeps_pdf e σ :
  (∀ f, file (uploader σ) = Some f -> isPdf f = true) ->
  (∀ f, file (uploader (step e σ).1) = Some f -> isPdf f = true)
  ∧ Forall (fun f => isPdf f = true) (posted (step e σ).2).
Proof.
  destruct σ as [[fl up] reqs]. cbn [uploader file]. intros Hpdf.
  destruct e as [sel| |i r]; cbn [step uploader uploads].
  - unfold handleFileChange. destruct sel as [f|]; cbn.
    + unfold isPdf. destruct (bool_decide (file_type f = _)) eqn:E; cbn.
      * split; [|constructor]. intros f' [= <-]. exact E.
      * split; [discriminate|constructor].
    + split; [discriminate|constructor].
  - unfold handleUpload. cbn [file]. destruct fl as [f|]; cbn.
    + split; [exact Hpdf|]. repeat constructor. by apply Hpdf.
    + split; [exact Hpdf|constructor].
  - destruct (reqs !! i); cbn; [|split; [exact Hpdf|constructor]].
    split; [exact Hpdf|]. destruct r as [|[st [data|]]]; constructor.
Qed.

(** X20. Whatever the sequence of events, from a component whose stored
    file (if any) is a PDF, every request sent carries a PDF, and the stored
    file is still a PDF or none. *)
Theorem uploader_posts_only_pdfs evs σ :
  (∀ f, file (uploader σ) = Some f -> isPdf f = true) ->
  Forall (fun f => isPdf f = true) (posted (steps evs σ).2)
  ∧ (∀ f, file (uploader (steps evs σ).1) = Some f -> isPdf f = true).
Proof.
  revert σ. induction evs as [|e evs IH]; intros σ Hpdf.
  - split; [constructor|exact Hpdf].
  - cbn [steps]. destruct (step_keeps_pdf e σ Hpdf) as [H1 H2].
    destruct (step e σ) as [σ1 out1]. cbn [fst snd] in *.
    destruct (IH σ1 H1) as [H3 H4].
    destruct (steps evs σ1) as [σ2 out2]. cbn [fst snd] in *.
    split; [|exact H4]. unfold posted. rewrite omap_app. apply Forall_app. auto.
Qed.

(** X21. When the upload settles, the flag is cleared, the file is kept
    and exactly one alert is shown; it announces success exactly when the
    response has a JSON body, whatever its status, and failure when the
    request was rejected or the body is not JSON. *)
Theorem upload_outcome r s :
  let s' := (handleUpload_resume r s).1 in
  let out := (handleUpload_resume r s).2 in
  isUploading s' = false
  ∧ file s' = file s
  ∧ posted out = []
  ∧ (out = [alert "Upload successful! Check console for response."]
     ∨ out = [alert "Upload failed. Check console for details."])
  ∧ (out = [alert "Upload successful! Check console for response."]
     ↔ ∃ st data, r = resolved (mkResponse st (Some data))).
Proof.
  cbv zeta. unfold handleUpload_resume. cbn [fst snd isUploading file].
  destruct r as [|[st [data|]]]; cbn [body];
    (split; [reflexivity|]); (split; [reflexivity|]); (split; [reflexivity|]);
    (split; [auto|]); split; try discriminate; eauto;
    intros (? & ? & [=]).
Qed.


(** At most one upload is awaited, and the flag says whether one is. *)
Lemma step_single_upload e σ :
  (length (uploads σ) ≤ 1)%nat
  ∧ isUploading (uploader σ) = bool_decide (uploads σ ≠ []) ->
  offered σ e = true ->
  (length (uploads (step e σ).1) ≤ 1)%nat
  ∧ isUploading (uploader (step e σ).1) = bool_decide (uploads (step e σ).1 ≠ []).
Proof.
  destruct σ as [[fl up] reqs]. cbn [uploader uploads isUploading].
  intros [Hlen Hflag] He.
  destruct e as [sel| |i r]; cbn [step offered uploader uploads isUploading file] in *.
  - unfold handleFileChange. cbn [isUploading].
    destruct sel as [f|]; [destruct (bool_decide (file_type f = _))|];
      cbn [fst snd uploader uploads isUploading]; split; assumption.
  - apply andb_true_iff in He as [Hfile Hup]. apply negb_true_iff in Hup.
    rewrite Hup in Hflag. symmetry in Hflag. apply bool_decide_eq_false in Hflag.
    assert (reqs = []) as -> by (destruct reqs; [reflexivity|exfalso; apply Hflag; discriminate]).
    apply bool_decide_eq_true in Hfile. destruct Hfile as [f ->].
    cbn. split; [lia|reflexivity].
  - apply bool_decide_eq_true in He. destruct He as [f Hf]. rewrite Hf.
    destruct reqs as [|f' [|f'' reqs]]; [discriminate| |cbn in Hlen; lia].
    destruct i as [|i]; [|discriminate]. cbn. split; [lia|reflexivity].
Qed.

Lemma stepsUI_single_upload evs σ σ' :
  (length (uploads σ) ≤ 1)%nat
  ∧ isUploading (uploader σ) = bool_decide (uploads σ ≠ []) ->
  stepsUI evs σ = Some σ' ->
  (length (uploads σ') ≤ 1)%nat
  ∧ isUploading (uploader σ') = bool_decide (uploads σ' ≠ []).
Proof.
  revert σ. induction evs as [|e evs IH]; intros σ Hσ Hrun; cbn [stepsUI] in Hrun.
  - injection Hrun as <-. exact Hσ.
  - destruct (offered σ e) eqn:He; [|discriminate].
    eapply IH; [|eassumption]. by apply step_single_upload.
Qed.

(** X23. Through the rendered component at most one upload is awaited at
    any time, the flag is set exactly while one is, and meanwhile neither a
    selection nor another upload is offered. *)
Theorem uploader_single_flight evs σ :
  stepsUI evs initial = Some σ ->
  (length (uploads σ) ≤ 1)%nat
  ∧ (isUploading (uploader σ) = true ↔ uploads σ ≠ [])
  ∧ (uploads σ ≠ [] ->
     offered σ ClickUpload = false ∧ ∀ sel, offered σ (ChooseFile sel) = false).
Proof.
  intros Hrun.
  assert (Hinv : (length (uploads σ) ≤ 1)%nat
                 ∧ isUploading (uploader σ) = bool_decide (uploads σ ≠ [])).
  { eapply stepsUI_single_upload; [|eassumption]. split; [cbn; lia|reflexivity]. }
  destruct Hinv as [Hlen Hflag]. split; [exact Hlen|].
  split; [rewrite Hflag; apply bool_decide_eq_true|].
  intros Hne. cbn. rewrite Hflag, (bool_decide_eq_true_2 _ Hne).
  split; [apply andb_false_r|reflexivity].
Qed.

End UploaderFacts.

(** ** The schema on the values the form can hold *)
Section RawValidation.
Import Zod.

Variable experienceLevels : list jstring.

Lemma array_of_elements n (data : list RawSchemas.Element) acc :
  foldl (fun acc r => (mergeStatus acc.1 r.1, acc.2 ++ r.2)) acc
        (imap (fun i v => RawSchemas.parseElement string_
                            ([key "technologies"] ++ [index (n + i)]) v) data)
  = (mergeStatus acc.1 (if forallb RawSchemas.isText data then valid else aborted),
     acc.2 ++ RawSchemas.elementIssues n data).
Proof.
  revert n acc. induction data as [|e data IH]; intros n acc.
  - cbn. destruct acc as [[] ?]; cbn; rewrite app_nil_r; reflexivity.
  - cbn [imap foldl].
    rewrite (imap_ext _ (fun i v => RawSchemas.parseElement string_
                                      ([key "technologies"] ++ [index (S n + i)]) v))
      by (intros i x _; cbn; rewrite Nat.add_succ_r; reflexivity).
    rewrite IH. rewrite Nat.add_0_r.
    destruct e as [s|k]; cbn.
    + rewrite app_nil_r. destruct acc as [[] ?]; reflexivity.
    + rewrite <- app_assoc. cbn.
      destruct acc as [[] ?], (forallb RawSchemas.isText data); reflexivity.
Qed.

Lemma array_elements data :
  array (RawSchemas.parseElement string_) [key "technologies"] data
  = (if forallb RawSchemas.isText data then valid else aborted,
     RawSchemas.elementIssues 0 data).
Proof.
  unfold array. etransitivity; [exact (array_of_elements 0 data OK)|]. cbn.
  destruct (forallb RawSchemas.isText data); reflexivity.
Qed.

Lemma raw_refinement_spec d :
  RawSchemas.descriptionRefinement d =
    if Schemas.falsy_flag (RawSchemas.hasResume d)
       && bool_decide (trim (RawSchemas.description d) = [])
    then [mkIssue custom [key "description"] (Some "Required")]
    else [].
Proof.
  unfold RawSchemas.descriptionRefinement. rewrite length_zero_iff_nil.
  destruct (RawSchemas.description d); [|reflexivity].
  rewrite trim_empty. reflexivity.
Qed.

Lemma relocate_nil (l : list ZodIssue) :
  (fun i => mkIssue (code i) ([] ++ path i) (message i)) <$> l = l.
Proof. induction l as [|[] l IH]; [reflexivity|]. cbn. f_equal. exact IH. Qed.

(** The issues of a value the form can hold, key by key. *)
Lemma raw_validate_issues d :
  RawSchemas.validate experienceLevels d =
    (match RawSchemas.name d with
     | [] => [mkIssue too_small [key "name"] (Some "Required")]
     | _ => []
     end)
    ++ (match RawSchemas.title d with
        | Some [] => [mkIssue too_small [key "title"] None]
        | _ => []
        end)
    ++ (if bool_decide (RawSchemas.experienceLevel d ∈ experienceLevels)
        then []
        else [mkIssue invalid_enum_value [key "experienceLevel"] None])
    ++ RawSchemas.elementIssues 0 (RawSchemas.technologies d)
    ++ (if bool_decide (RawSchemas.experienceLevel d ∈ experienceLevels)
           && forallb RawSchemas.isText (RawSchemas.technologies d)
        then RawSchemas.descriptionRefinement d
        else []).
Proof.
  unfold RawSchemas.validate, safeParse, RawSchemas.jobInfoSchema, superRefine, object, field.
  cbn [fmap list_fmap foldl app].
  rewrite array_elements, relocate_nil.
  unfold enum, nullable, optional, boolean, parseString, min, string_, runCheck.
  cbn [app foldl].
  generalize (RawSchemas.elementIssues 0 (RawSchemas.technologies d)). intros E.
  generalize (RawSchemas.descriptionRefinement d). intros R.
  replace (match RawSchemas.hasResume d with Some _ | _ => OK end) with OK
    by (destruct (RawSchemas.hasResume d); reflexivity).
  destruct (RawSchemas.name d) as [|? ?], (RawSchemas.title d) as [[|? ?]|],
    (bool_decide (RawSchemas.experienceLevel d ∈ experienceLevels)),
    (forallb RawSchemas.isText (RawSchemas.technologies d));
    simpl; rewrite ?app_nil_r; reflexivity.
Qed.

Lemma elementIssues_nil n l :
  RawSchemas.elementIssues n l = [] ↔ forallb RawSchemas.isText l = true.
Proof.
  revert n. induction l as [|[s|k] l IH]; intros n; cbn.
  - tauto.
  - apply IH.
  - split; discriminate.
Qed.

Lemma elem_of_elementIssues i n l :
  i ∈ RawSchemas.elementIssues n l
  ↔ ∃ m k, i = mkIssue invalid_type [key "technologies"; index (n + m)] None
           ∧ l !! m = Some (RawSchemas.other k).
Proof.
  revert n. induction l as [|e l IH]; intros n.
  - cbn. split; [intros H; inversion H|intros (m & k & _ & H); discriminate].
  - specialize (IH (S n)).
    destruct e as [s|k0]; cbn [RawSchemas.elementIssues].
    + rewrite IH. split.
      * intros (m & k & -> & H). exists (S m), k.
        replace (n + S m)%nat with (S n + m)%nat by lia. auto.
      * intros (m & k & -> & H). destruct m as [|m]; [discriminate|].
        exists m, k. replace (n + S m)%nat with (S n + m)%nat by lia. auto.
    + rewrite elem_of_cons, IH. split.
      * intros [->|(m & k & -> & H)].
        -- exists 0%nat, k0. rewrite Nat.add_0_r. auto.
        -- exists (S m), k. replace (n + S m)%nat with (S n + m)%nat by lia. auto.
      * intros (m & k & -> & H). destruct m as [|m].
        -- left. rewrite Nat.add_0_r. reflexivity.
        -- right. exists m, k.
           replace (n + S m)%nat with (S n + m)%nat by lia. auto.
Qed.

Lemma elementIssues_NoDup n l : NoDup (path <$> RawSchemas.elementIssues n l).
Proof.
  revert n. induction l as [|[s|k] l IH]; intros n; cbn.
  - constructor.
  - apply IH.
  - constructor; [|apply IH].
    rewrite list_elem_of_fmap. intros (i & Hp & Hi).
    apply elem_of_elementIssues in Hi as (m & k' & -> & _).
    cbn in Hp. injection Hp as Hp. lia.
Qed.

(** The schema on a list of strings is the schema of the typed form
    value. *)
Lemma raw_validate_ofTyped d :
  RawSchemas.validate experienceLevels (RawSchemas.ofTyped d)
  = Schemas.validate experienceLevels d.
Proof.
  rewrite raw_validate_issues, validate_issues. cbn.
  assert (Hall : forallb RawSchemas.isText (RawSchemas.text <$> Schemas.technologies d) = true).
  { induction (Schemas.technologies d); [reflexivity|]. cbn. assumption. }
  rewrite Hall, (proj2 (elementIssues_nil 0 _) Hall), andb_true_r. cbn.
  destruct (bool_decide _); reflexivity.
Qed.

Lemma forallb_isText l :
  forallb RawSchemas.isText l = true ↔ Forall (fun e => RawSchemas.isText e = true) l.
Proof.
  induction l as [|e l IH]; cbn.
  - split; [constructor|reflexivity].
  - rewrite andb_true_iff, Forall_cons, IH. reflexivity.
Qed.

(** X1. A value the form can hold passes the schema (no issue at all)
    exactly when its name is not the empty string, its title is [null] or
    not the empty string, its experience level is one of the levels, every
    element of its technology list is a string, and it either has a resume
    or a description that is not empty after trimming. *)
Theorem raw_accepts_iff d :
  RawSchemas.validate experienceLevels d = []
  ↔ RawSchemas.name d ≠ []
    ∧ RawSchemas.title d ≠ Some []
    ∧ RawSchemas.experienceLevel d ∈ experienceLevels
    ∧ Forall (fun e => RawSchemas.isText e = true) (RawSchemas.technologies d)
    ∧ (RawSchemas.hasResume d = Some true ∨ trim (RawSchemas.description d) ≠ []).
Proof.
  rewrite raw_validate_issues, raw_refinement_spec.
  rewrite !app_nil, elementIssues_nil, <- forallb_isText.
  assert (Hname : match RawSchemas.name d with
                  | [] => [mkIssue too_small [key "name"] (Some "Required")]
                  | _ => []
                  end = [] ↔ RawSchemas.name d ≠ [])
    by (destruct (RawSchemas.name d); split; congruence).
  assert (Htitle : match RawSchemas.title d with
                   | Some [] => [mkIssue too_small [key "title"] None]
                   | _ => []
                   end = [] ↔ RawSchemas.title d ≠ Some [])
    by (destruct (RawSchemas.title d) as [[|]|]; split; congruence).
  rewrite Hname, Htitle. clear Hname Htitle.
  case_bool_decide as Hlevel; cbn [andb].
  - destruct (forallb RawSchemas.isText (RawSchemas.technologies d)).
    + destruct (RawSchemas.hasResume d) as [[]|]; cbn;
        try case_bool_decide; intuition (try congruence; try discriminate).
    + intuition discriminate.
  - intuition discriminate.
Qed.

(** Issues on top-level keys around the issues on the elements. *)
Lemma around_elements (A B E : list ZodIssue) :
  Forall (fun i => ∃ k, path i = [key k]) A ->
  Forall (fun i => ∃ k, path i = [key k]) B ->
  NoDup (path <$> (A ++ B)) ->
  (∀ i, i ∈ E -> ∃ n, path i = [key "technologies"; index n]) ->
  NoDup (path <$> E) ->
  NoDup (path <$> (A ++ E ++ B))
  ∧ ∀ k, errorsOn k (A ++ E ++ B) = errorsOn k (A ++ B).
Proof.
  intros HA HB HAB HE HEdup.
  rewrite Forall_forall in HA, HB.
  rewrite fmap_app, NoDup_app in HAB. destruct HAB as (HAdup & HABd & HBdup).
  split.
  - rewrite !fmap_app, !NoDup_app. repeat split; auto.
    + intros p Hp Hq. apply elem_of_app in Hq as [Hq|Hq]; [|by eapply HABd].
      apply list_elem_of_fmap in Hp as (i & -> & Hi).
      apply list_elem_of_fmap in Hq as (j & Hij & Hj).
      destruct (HA _ Hi) as [k Hk]. destruct (HE _ Hj) as [n Hn]. congruence.
    + intros p Hp Hq.
      apply list_elem_of_fmap in Hp as (i & -> & Hi).
      apply list_elem_of_fmap in Hq as (j & Hij & Hj).
      destruct (HB _ Hj) as [k Hk]. destruct (HE _ Hi) as [n Hn]. congruence.
  - intros k. unfold errorsOn. rewrite !filter_app.
    assert (Hnone : filter (fun i => path i = [key k]) E = []).
    { apply elem_of_nil_inv. intros i Hi.
      apply list_elem_of_filter in Hi as [Hp Hi].
      destruct (HE _ Hi) as [n Hn]. congruence. }
    rewrite Hnone. reflexivity.
Qed.

(** X2. The issues on a value the form can hold lie on [name], [title],
    [experienceLevel] and [description], and on the elements of
    [technologies] that are not strings, each of which is reported at its
    index as of the wrong type; no two issues share a path; nothing is
    reported on the technology list itself (the empty list included) nor on
    [hasResume]. *)
Theorem raw_issue_paths d :
  Forall (fun i => path i ∈ [[key "name"]; [key "title"];
                              [key "experienceLevel"]; [key "description"]]
                   ∨ ∃ n k, i = mkIssue invalid_type [key "technologies"; index n] None
                            ∧ RawSchemas.technologies d !! n = Some (RawSchemas.other k))
         (RawSchemas.validate experienceLevels d)
  ∧ (∀ n k, RawSchemas.technologies d !! n = Some (RawSchemas.other k) ->
       mkIssue invalid_type [key "technologies"; index n] None
       ∈ RawSchemas.validate experienceLevels d)
  ∧ NoDup (path <$> RawSchemas.validate experienceLevels d)
  ∧ errorsOn "technologies" (RawSchemas.validate experienceLevels d) = []
  ∧ errorsOn "hasResume" (RawSchemas.validate experienceLevels d) = [].
Proof.
  rewrite raw_validate_issues, raw_refinement_spec.
  set (E := RawSchemas.elementIssues 0 (RawSchemas.technologies d)).
  assert (HE : ∀ i, i ∈ E ↔ ∃ n k, i = mkIssue invalid_type
                                        [key "technologies"; index n] None
                                  ∧ RawSchemas.technologies d !! n
                                    = Some (RawSchemas.other k))
    by (intros i; apply (elem_of_elementIssues i 0)).
  assert (HEdup : NoDup (path <$> E)) by apply elementIssues_NoDup.
  assert (HEpath : ∀ i, i ∈ E -> ∃ n, path i = [key "technologies"; index n]).
  { intros i Hi. apply HE in Hi as (n & k & -> & _). eauto. }
  clearbody E.
  set (N := match RawSchemas.name d with [] => _ | _ => _ end).
  set (T := match RawSchemas.title d with Some [] => _ | _ => _ end).
  set (V := if bool_decide _ then [] else _).
  set (D := if _ && forallb _ _ then _ else _).
  assert (Hshape : N ++ T ++ V ++ E ++ D = (N ++ T ++ V) ++ E ++ D)
    by (rewrite <- !app_assoc; reflexivity).
  rewrite Hshape. clear Hshape.
  assert (Hkeys : Forall (fun i => path i ∈ [[key "name"]; [key "title"];
                                              [key "experienceLevel"]; [key "description"]])
                         ((N ++ T ++ V) ++ D)
                  ∧ NoDup (path <$> ((N ++ T ++ V) ++ D))
                  ∧ errorsOn "technologies" ((N ++ T ++ V) ++ D) = []
                  ∧ errorsOn "hasResume" ((N ++ T ++ V) ++ D) = []).
  { subst N T V D.
    destruct (RawSchemas.name d) as [|? ?], (RawSchemas.title d) as [[|? ?]|],
      (bool_decide (RawSchemas.experienceLevel d ∈ experienceLevels)),
      (forallb RawSchemas.isText (RawSchemas.technologies d)),
      (Schemas.falsy_flag (RawSchemas.hasResume d)),
      (bool_decide (trim (RawSchemas.description d) = []));
      cbn [andb app]; (split; [compute_done|]); (split; [compute_done|]);
      split; reflexivity. }
  destruct Hkeys as (Hk & Hdup & Htech & Hres).
  assert (Hone : ∀ L, Forall (fun i => path i ∈ [[key "name"]; [key "title"];
                                                  [key "experienceLevel"];
                                                  [key "description"]]) L ->
                      Forall (fun i => ∃ k, path i = [key k]) L).
  { intros L HL. eapply Forall_impl; [exact HL|]. intros i Hi.
    rewrite !elem_of_cons, elem_of_nil in Hi.
    destruct Hi as [->|[->|[->|[->|[]]]]]; eauto. }
  apply Forall_app in Hk as [HkA HkB].
  destruct (around_elements (N ++ T ++ V) D E (Hone _ HkA) (Hone _ HkB) Hdup HEpath HEdup)
    as [Hnodup Herr].
  split; [|split; [|split; [exact Hnodup|]]].
  - apply Forall_app. split; [|apply Forall_app; split].
    + eapply Forall_impl; [exact HkA|]. auto.
    + apply Forall_forall. intros i Hi. right. by apply HE.
    + eapply Forall_impl; [exact HkB|]. auto.
  - intros n k Hn. rewrite !elem_of_app. right. left. apply HE. eauto.
  - rewrite !Herr. auto.
Qed.


End RawValidation.

(** ** Request tokens *)
Section TokenFacts.
Import Schemas JobInfoForm Tokens.






End TokenFacts.

Section RevisedFacts.
Import Schemas JobInfoForm FormViews Route.

(** X10. Each of the name, the title, the experience level and the
    description is changed by the edit of that field only, which stores the
    value typed or selected (an emptied title as [null]); every other event,
    an edit of another field included, leaves it as it was. *)
Theorem fields_change_only_by_own_edit e σ :
  name (values (ui (dispatch e σ).1))
  = (match e with ChangeName v => v | _ => name (values (ui σ)) end)
  ∧ title (values (ui (dispatch e σ).1))
    = (match e with
       | ChangeTitle [] => None
       | ChangeTitle v => Some v
       | _ => title (values (ui σ))
       end)
  ∧ experienceLevel (values (ui (dispatch e σ).1))
    = (match e with
       | ChangeExperienceLevel v => v
       | _ => experienceLevel (values (ui σ))
       end)
  ∧ description (values (ui (dispatch e σ).1))
    = (match e with ChangeDescription v => v | _ => description (values (ui σ)) end).
Proof.
  destruct (isFieldEdit e) eqn:Hedit.
  - destruct σ as [[d ti f p u] fl].
    destruct e as [file|i r|tech|tech| |v|v|v|v]; try discriminate;
      try destruct v; repeat split.
  - pose proof (entered_fields_kept e σ Hedit) as H. unfold entered in H.
    injection H as H1 H2 H3 H4.
    destruct e; try discriminate; auto.
Qed.

Variable statusError : nat -> jstring.

(** X16. The route always answers, after at most one request to the
    extraction service. Its answer has status 200 exactly when the request
    carries a file under [file] and the service answers with a status in
    200-299 and a JSON body, the file having been forwarded under [resume];
    in every other case the status of the answer is outside 200-299. *)
Theorem relay_status formData external :
  ∃ res,
    (POST statusError formData external).1 = fulfilled res
    ∧ (length (POST statusError formData external).2 ≤ 1)%nat
    ∧ match relayed formData external with
      | Some (f, _) =>
          res_status res = 200%nat
          ∧ (POST statusError formData external).2
            = [fetch_post "http://localhost:5000/parse-resume" "resume" f]
      | None => okStatus (res_status res) = false
      end.
Proof.
  destruct (relay_answers statusError formData external) as (res & H1 & H2 & H3).
  exists res. split; [exact H1|]. split; [exact H2|].
  destruct (relayed formData external) as [[f data]|]; [|exact H3].
  destruct H3 as [-> H3]. auto.
Qed.

(** X19. The form's handler on the route's answer: whenever the route did
    not relay the service's JSON (no file, the service unreachable or
    answering an error, a body that is not JSON), its answer has a status
    outside 200-299 and the handler takes its failure path, whatever body it
    reads: an error is shown, the file dropped and resume mode left. *)
Theorem relay_failure_then_form formData external res body s :
  (POST statusError formData external).1 = fulfilled res ->
  relayed formData external = None ->
  handleResumeUpload_resume (resolved (mkResponse (res_status res) body)) s
  = (normal (), failedState s,
     [toast_error "Failed to parse resume. Please try again."]).
Proof.
  intros Hres Hnone.
  destruct (relay_answers statusError formData external) as (res' & Hres' & _ & Hcase).
  rewrite Hres in Hres'. injection Hres' as <-.
  rewrite Hnone in Hcase.
  rewrite handleResumeUpload_resume_run. unfold classify, ok.
  cbn [status]. unfold okStatus in Hcase. rewrite Hcase. reflexivity.
Qed.

End RevisedFacts.

(** *** The added properties on sample runs *)
Section MoreExamples.
Import Zod Schemas JobInfoForm FormViews Route PdfUploader Tokens Samples MoreSamples.

Lemma offered_add_witness :
  enabled (mount defaultValues) (AddTechnology (js "React")) = true
  ∧ technologiesOf (dispatch (AddTechnology (js "React")) (mount defaultValues)).1
    = [js "React"].
Proof.
  assert (H : enabled (mount defaultValues) (AddTechnology (js "React")) = true)
    by reflexivity.
  split; [exact H|].
  exact (proj1 (proj2 (offered_add (js "React") (mount defaultValues) H))).
Defined.

Lemma optional_label_is_honoured_witness :
  runUI [SelectFile (Some pdf)] (mount defaultValues)
  = Some (dispatch (SelectFile (Some pdf)) (mount defaultValues)).1
  ∧ descriptionLabelledOptional
      (ui (dispatch (SelectFile (Some pdf)) (mount defaultValues)).1) = true
  ∧ errorsOn "description"
      (validate levels
         (values (ui (dispatch (SelectFile (Some pdf)) (mount defaultValues)).1))) = [].
Proof.
  split; [reflexivity|]. split; [reflexivity|].
  apply (optional_label_is_honoured [SelectFile (Some pdf)] defaultValues _ levels eq_refl).
  reflexivity.
Defined.

Lemma upload_then_clear_witness :
  file_type pdf = js "application/pdf"
  ∧ inflight filled = []
  ∧ classify (found [js "Python"; js "SQL"]) = Success [js "Python"; js "SQL"]
  ∧ technologiesOf filled = [js "Docker"; js "AWS"]
  ∧ technologiesOf
      (run [SelectFile (Some pdf); Settle 0 (found [js "Python"; js "SQL"]); ClearResume]
           filled) = [].
Proof.
  split; [reflexivity|]. split; [reflexivity|]. split; [reflexivity|].
  split; [reflexivity|].
  rewrite (upload_then_clear pdf (found [js "Python"; js "SQL"]) [js "Python"; js "SQL"]
             filled eq_refl eq_refl eq_refl).
  reflexivity.
Defined.

Lemma failed_upload_leaves_hasResume_witness :
  file_type pdf = js "application/pdf"
  ∧ inflight (mount defaultValues) = []
  ∧ classify serverError = NetworkFailure
  ∧ errorsOn "description"
      (validate levels
         (values (ui (run [SelectFile (Some pdf); Settle 0 serverError]
                          (mount defaultValues))))) = [].
Proof.
  split; [reflexivity|]. split; [reflexivity|]. split; [reflexivity|].
  exact (proj2 (failed_upload_leaves_hasResume pdf serverError (mount defaultValues) levels
                  eq_refl eq_refl eq_refl)).
Defined.

Lemma retry_after_settle_witness :
  runUI [SelectFile (Some pdf)] (mount defaultValues)
  = Some (dispatch (SelectFile (Some pdf)) (mount defaultValues)).1
  ∧ enabled (dispatch (Settle 0 serverError)
               (dispatch (SelectFile (Some pdf)) (mount defaultValues)).1).1
            (SelectFile (Some pdf2)) = true.
Proof.
  split; [reflexivity|].
  apply (retry_after_settle [SelectFile (Some pdf)] defaultValues _ serverError eq_refl).
  discriminate.
Defined.

Lemma relay_without_file_witness :
  (∀ f, Route.get (js "file") withText ≠ Some (entry_file f))
  ∧ POST noText (fulfilled withText) (fulfilled unprocessable)
    = (fulfilled (mkNextResponse 400 (errorBody "No file provided" None)), []).
Proof.
  assert (H : ∀ f, Route.get (js "file") withText ≠ Some (entry_file f)) by discriminate.
  split; [exact H|].
  exact (relay_without_file noText withText (fulfilled unprocessable) H).
Defined.

Lemma relay_passes_error_status_witness :
  Route.get (js "file") withFile = Some (entry_file pdf)
  ∧ okStatus (ext_status unprocessable) = false
  ∧ (POST noText (fulfilled withFile) (fulfilled unprocessable)).1
    = fulfilled (mkNextResponse 422
                   (errorBody "Failed to parse resume" (Some (js "no text layer")))).
Proof.
  split; [reflexivity|]. split; [reflexivity|].
  rewrite (relay_passes_error_status noText withFile pdf unprocessable
             (js "no text layer") eq_refl eq_refl eq_refl).
  reflexivity.
Defined.

Lemma relay_failure_then_form_witness :
  (POST noText (fulfilled withFile) (fulfilled unprocessable)).1
  = fulfilled (mkNextResponse 422
                 (errorBody "Failed to parse resume" (Some (js "no text layer"))))
  ∧ relayed (fulfilled withFile) (fulfilled unprocessable) = None
  ∧ effectsOf (handleResumeUpload_resume (resolved (mkResponse 422 None))) (ui filled)
    = [toast_error "Failed to parse resume. Please try again."].
Proof.
  split; [reflexivity|]. split; [reflexivity|].
  exact (f_equal snd
           (relay_failure_then_form noText (fulfilled withFile) (fulfilled unprocessable)
              (mkNextResponse 422
                 (errorBody "Failed to parse resume" (Some (js "no text layer"))))
              None (ui filled) eq_refl eq_refl)).
Defined.


(** A list with a number and [null] among the names: each is reported at
    its index, and nothing else is, the refinement not being run. *)
Lemma mixed_list_reported :
  RawSchemas.validate levels mixedList
  = [mkIssue invalid_type [key "technologies"; index 0] None;
     mkIssue invalid_type [key "technologies"; index 2] None].
Proof. reflexivity. Qed.

Lemma uploader_posts_only_pdfs_witness :
  (∀ f, file (uploader initial) = Some f -> isPdf f = true)
  ∧ posted (steps [ChooseFile (Some text); ClickUpload; ChooseFile (Some pdf); ClickUpload]
                  initial).2 = [pdf]
  ∧ Forall (fun f => isPdf f = true)
           (posted (steps [ChooseFile (Some text); ClickUpload; ChooseFile (Some pdf);
                           ClickUpload] initial).2).
Proof.
  assert (H : ∀ f, file (uploader initial) = Some f -> isPdf f = true) by discriminate.
  split; [exact H|]. split; [reflexivity|].
  exact (proj1 (uploader_posts_only_pdfs
                  [ChooseFile (Some text); ClickUpload; ChooseFile (Some pdf); ClickUpload]
                  initial H)).
Defined.

Lemma uploader_single_flight_witness :
  stepsUI [ChooseFile (Some pdf); ClickUpload] initial
  = Some (steps [ChooseFile (Some pdf); ClickUpload] initial).1
  ∧ offered (steps [ChooseFile (Some pdf); ClickUpload] initial).1 ClickUpload = false.
Proof.
  split; [reflexivity|].
  apply (uploader_single_flight [ChooseFile (Some pdf); ClickUpload] _ eq_refl).
  discriminate.
Defined.

End MoreExamples.
